(** * API de Productos - Cooperativa: validation and store (src/main.py)

    A shallow embedding of [src/main.py]: the pydantic model [ProductoIn]
    with its field constraints and field validators, the in-memory store
    [DB] and the five request handlers.

    Modelling boundary.
    - A Python [str] is a [string]: a sequence of code points in the range
      U+0000..U+00FF, one [ascii] per code point.  [str.strip], [str.lower]
      and [len] are given for that range.
    - A [Decimal] is a finite value (sign, coefficient, exponent); NaN
      and infinities are outside the model.  Operands are taken within the
      default arithmetic context (28 digits), where [Decimal.normalize]
      only removes trailing zeros.
    - A request carries values of the declared types: the path parameter
      is a well-formed UUID and the body holds a text, a finite decimal
      and a list of texts.  Malformed ids and ill-typed bodies, which the
      framework answers before any code of [src/main.py] runs, are outside
      the model.
    - A [UUID] is its 128-bit integer value; [uuid4] draws from an entropy
      source carried by the world state.
    - The store is a dictionary keyed by [UUID]: a [gmap]. *)

From Stdlib Require Import ZArith NArith Ascii String List Lia.
From stdpp Require Import base option list sorting strings gmap fin_maps fin_sets.

Local Open Scope string_scope.
Local Open Scope nat_scope.

(** ** Python [str] on code points below U+0100 *)

Module PyStr.

(** [str.isspace] for one code point: TAB..CR, FS..US, SPACE, NEL, NBSP. *)
Definition isspace (c : ascii) : bool :=
  let n := N_of_ascii c in
  ((9 <=? n) && (n <=? 13) || (28 <=? n) && (n <=? 32)
   || (n =? 133) || (n =? 160))%N.

(** [str.lower] for one code point: A..Z and the Latin-1 capitals
    U+00C0..U+00DE except the multiplication sign U+00D7. *)
Definition lower_char (c : ascii) : ascii :=
  let n := N_of_ascii c in
  if ((65 <=? n) && (n <=? 90)
      || (192 <=? n) && (n <=? 222) && negb (n =? 215))%N
  then ascii_of_N (n + 32) else c.

Fixpoint lower (s : string) : string :=
  match s with
  | EmptyString => EmptyString
  | String c r => String (lower_char c) (lower r)
  end.

Fixpoint lstrip (s : string) : string :=
  match s with
  | EmptyString => EmptyString
  | String c r => if isspace c then lstrip r else s
  end.

(** [rstrip] drops the trailing run of whitespace: a character is kept
    when it is not whitespace or when something is kept after it. *)
Fixpoint rstrip (s : string) : string :=
  match s with
  | EmptyString => EmptyString
  | String c r =>
      match rstrip r with
      | EmptyString => if isspace c then EmptyString else String c EmptyString
      | r' => String c r'
      end
  end.

Definition strip (s : string) : string := rstrip (lstrip s).

Definition len (s : string) : nat := String.length s.

(** Truth value of a [str]: non-empty. *)
Definition truthy (s : string) : bool :=
  match s with EmptyString => false | String _ _ => true end.

End PyStr.

(** ** [decimal.Decimal]: finite values *)

Record Decimal : Type := mkDecimal {
  dsign : bool;      (* True for a negative value, as in [as_tuple().sign] *)
  coef  : N;         (* the digit tuple, read as a number *)
  dexp  : Z          (* the exponent *)
}.

Module PyDecimal.

Definition prec : N := 28.
Definition Emax : Z := 999999.

(** Number of digits of the coefficient; [Decimal(0)] has the digit
    tuple [(0,)]. *)
Fixpoint ndigits_aux (fuel : nat) (n : N) : N :=
  match fuel with
  | O => 1
  | S f => if (n <? 10)%N then 1%N else (1 + ndigits_aux f (n / 10))%N
  end.

Definition ndigits (n : N) : N := ndigits_aux (N.to_nat (N.size n)) n.

(** [Decimal.adjusted()]. *)
Definition adjusted (d : Decimal) : Z := (dexp d + Z.of_N (ndigits (coef d)) - 1)%Z.

(** [Decimal.normalize()]: zero becomes [0E+0], otherwise trailing zeros
    of the coefficient move into the exponent. *)
Fixpoint strip_zeros (fuel : nat) (c : N) (e : Z) : N * Z :=
  match fuel with
  | O => (c, e)
  | S f => if (c mod 10 =? 0)%N then strip_zeros f (c / 10)%N (e + 1)%Z else (c, e)
  end.

Definition normalize (d : Decimal) : Decimal :=
  if (coef d =? 0)%N then mkDecimal (dsign d) 0 0
  else let '(c, e) := strip_zeros (N.to_nat (N.size (coef d))) (coef d) (dexp d) in
       mkDecimal (dsign d) c e.

(** [Decimal._rescale(e, ROUND_HALF_UP)]: the coefficient at exponent [e].
    Padding with zeros when the exponent goes down; otherwise the dropped
    digits are [r] out of [10^k], and the kept part is incremented when
    the first dropped digit is 5 or more, that is when [10^k <= 2 r]. *)
Definition rescale_half_up (d : Decimal) (e : Z) : N :=
  if (e <=? dexp d)%Z then (coef d * 10 ^ Z.to_N (dexp d - e))%N
  else
    let p := (10 ^ Z.to_N (e - dexp d))%N in
    let q := (coef d / p)%N in
    let r := (coef d mod p)%N in
    if (p <=? 2 * r)%N then (q + 1)%N else q.

(** [self.quantize(Decimal(10) ** e, rounding=ROUND_HALF_UP)]; [None]
    stands for [decimal.InvalidOperation] (result too long for the
    context, or exponent out of range). *)
Definition quantize_half_up (d : Decimal) (e : Z) : option Decimal :=
  if (coef d =? 0)%N then Some (mkDecimal (dsign d) 0 e)
  else if (Emax <? adjusted d)%Z then None
  else if (Z.of_N prec <? adjusted d - e + 1)%Z then None
  else
    let c := rescale_half_up d e in
    if (Emax <? e + Z.of_N (ndigits c) - 1)%Z then None
    else if (prec <? ndigits c)%N then None
    else Some (mkDecimal (dsign d) c e).

(** The value as a rational with denominator a power of ten is compared
    through cross-multiplication: [same_value a b] when both denote the
    same number. *)
Definition signed (d : Decimal) : Z :=
  if dsign d then (- Z.of_N (coef d))%Z else Z.of_N (coef d).

Definition same_value (a b : Decimal) : Prop :=
  (signed a * 10 ^ (dexp a - Z.min (dexp a) (dexp b)) =
   signed b * 10 ^ (dexp b - Z.min (dexp a) (dexp b)))%Z.

End PyDecimal.

(** 10.005, 10.004, 5.999, 10.01, 10.00 and 6.00 as decimals. *)
Definition d_10_005 : Decimal := mkDecimal false 10005 (-3).
Definition d_10_004 : Decimal := mkDecimal false 10004 (-3).
Definition d_5_999  : Decimal := mkDecimal false 5999 (-3).
Definition d_10_01  : Decimal := mkDecimal false 1001 (-2).
Definition d_10_00  : Decimal := mkDecimal false 1000 (-2).
Definition d_6_00   : Decimal := mkDecimal false 600 (-2).

(** ** Exceptions and outcomes *)

(** The messages of the [ValueError]s raised by the validators of
    [ProductoIn]; the last one carries the list it formats. *)
Inductive Mensaje : Type :=
| El_nombre_no_puede_estar_vacio
| Debe_incluir_al_menos_una_categoria_valida
| Las_categorias_no_deben_repetirse
| Categorias_no_permitidas (desconocidas : list string).

(** One line of a pydantic [ValidationError]: the error type. *)
Inductive ErrorDetail : Type :=
| string_too_short
| string_too_long
| decimal_max_digits
| decimal_max_places
| decimal_whole_digits
| greater_than
| too_short
| too_long
| value_error (msg : Mensaje).

Inductive Exception : Type :=
| ValueError (msg : Mensaje)
| InvalidOperation
| ValidationError (errors : list (string * ErrorDetail))
| HTTPException (status_code : nat) (detail : string).

Inductive Outcome (A : Type) : Type :=
| Return (a : A)
| Raise (x : Exception).

Arguments Return {A} a.
Arguments Raise {A} x.

(** ** pydantic: [Field] and the core validators *)

Inductive Kw : Type :=
| KNat (n : nat)
| KBool (b : bool)
| KStr (s : string).

(** What [Field(...)] keeps.  The constraints below are the keyword
    arguments [Field] declares; any other keyword is collected in
    [json_schema_extra] (with a deprecation warning) and takes no part in
    validation. *)
Record FieldInfo : Type := mkFieldInfo {
  f_gt : option nat;
  f_max_digits : option nat;
  f_decimal_places : option nat;
  f_min_length : option nat;
  f_max_length : option nat;
  f_description : option string;
  json_schema_extra : list (string * Kw)
}.

Definition no_constraints : FieldInfo :=
  mkFieldInfo None None None None None None [].

Definition set_kw (fi : FieldInfo) (kw : string * Kw) : FieldInfo :=
  let 'mkFieldInfo g md dp mn mx ds ex := fi in
  match kw with
  | ("gt", KNat n) => mkFieldInfo (Some n) md dp mn mx ds ex
  | ("max_digits", KNat n) => mkFieldInfo g (Some n) dp mn mx ds ex
  | ("decimal_places", KNat n) => mkFieldInfo g md (Some n) mn mx ds ex
  | ("min_length", KNat n) => mkFieldInfo g md dp (Some n) mx ds ex
  | ("max_length", KNat n) => mkFieldInfo g md dp mn (Some n) ds ex
  | ("description", KStr s) => mkFieldInfo g md dp mn mx (Some s) ex
  | _ => mkFieldInfo g md dp mn mx ds (ex ++ [kw])
  end.

Definition Field (kwargs : list (string * Kw)) : FieldInfo :=
  fold_left set_kw kwargs no_constraints.

Definition exceeds (limit : option nat) (x : N) : bool :=
  match limit with
  | Some m => (N.of_nat m <? x)%N
  | None => false
  end.

(** The core [str] validator: length bounds in code points. *)
Definition str_validator (fi : FieldInfo) (v : string) : ErrorDetail + string :=
  let n := N.of_nat (PyStr.len v) in
  match f_min_length fi with
  | Some m => if (n <? N.of_nat m)%N then inl string_too_short
              else if exceeds (f_max_length fi) n then inl string_too_long else inr v
  | None => if exceeds (f_max_length fi) n then inl string_too_long else inr v
  end.

(** The core [list] validator: length bounds on the sequence as received. *)
Definition list_validator {A : Type} (fi : FieldInfo) (v : list A) : ErrorDetail + list A :=
  let n := N.of_nat (length v) in
  match f_min_length fi with
  | Some m => if (n <? N.of_nat m)%N then inl too_short
              else if exceeds (f_max_length fi) n then inl too_long else inr v
  | None => if exceeds (f_max_length fi) n then inl too_long else inr v
  end.

(** Decimal places and digits of a decimal, from its digit tuple and
    exponent: a non-negative exponent adds trailing zeros, a negative one
    gives that many decimal places and at least that many digits. *)
Definition digits_info (d : Decimal) : N * N :=
  if (0 <=? dexp d)%Z
  then (0%N, (PyDecimal.ndigits (coef d) + Z.to_N (dexp d))%N)
  else (Z.to_N (- dexp d), N.max (PyDecimal.ndigits (coef d)) (Z.to_N (- dexp d))).

(** [d > g] for a natural bound [g]. *)
Definition decimal_gt (d : Decimal) (g : nat) : bool :=
  if dsign d then false
  else if (0 <=? dexp d)%Z
       then (N.of_nat g <? coef d * 10 ^ Z.to_N (dexp d))%N
       else (N.of_nat g * 10 ^ Z.to_N (- dexp d) <? coef d)%N.

(** The core [Decimal] validator.  A digit bound is broken only when both
    the value as written and its normalized form exceed it; whole digits
    are counted on the value as written; the comparison comes last. *)
Definition decimal_validator (fi : FieldInfo) (d : Decimal) : ErrorDetail + Decimal :=
  let '(decimals, digits) := digits_info d in
  let '(ndecimals, ndigits) := digits_info (PyDecimal.normalize d) in
  if exceeds (f_max_digits fi) digits && exceeds (f_max_digits fi) ndigits
  then inl decimal_max_digits
  else if exceeds (f_decimal_places fi) decimals && exceeds (f_decimal_places fi) ndecimals
  then inl decimal_max_places
  else if match f_max_digits fi, f_decimal_places fi with
          | Some md, Some dp => (N.of_nat (md - dp) <? digits - decimals)%N
          | _, _ => false
          end
  then inl decimal_whole_digits
  else if match f_gt fi with
          | Some g => negb (decimal_gt d g)
          | None => false
          end
  then inl greater_than
  else inr d.

(** A field: the core validator, then the [field_validator] of the class
    (mode "after").  A [ValueError] of the latter becomes a line of the
    [ValidationError]; any other exception goes through. *)
Definition validate_field {A : Type} (core : A -> ErrorDetail + A)
    (after : A -> Outcome A) (v : A) : Outcome (ErrorDetail + A) :=
  match core v with
  | inl e => Return (inl e)
  | inr x =>
      match after x with
      | Return y => Return (inr y)
      | Raise (ValueError m) => Return (inl (value_error m))
      | Raise x => Raise x
      end
  end.

(** ** [src/main.py] *)

Definition CATALOGO_CATEGORIAS : gset string :=
  {[ "granos"; "frutas"; "hortalizas"; "lacteos"; "carnes";
     "procesados"; "organicos"; "ofertas"; "semillas"; "bebidas" ]}.

(** The keyword arguments of a [ProductoIn]: the request body once parsed. *)
Record Datos : Type := mkDatos {
  d_nombre : string;
  d_precio : Decimal;
  d_categorias : list string
}.

Record ProductoIn : Type := mkProductoIn {
  nombre : string;
  precio : Decimal;
  categorias : list string
}.

Module ProductoIn_class.

Definition nombre_info : FieldInfo :=
  Field [("min_length", KNat 3); ("max_length", KNat 60); ("strip_whitespace", KBool true)].

Definition precio_info : FieldInfo :=
  Field [("gt", KNat 0); ("max_digits", KNat 10); ("decimal_places", KNat 2)].

Definition categorias_info : FieldInfo :=
  Field [("min_length", KNat 1); ("max_length", KNat 10);
         ("description", KStr "Lista de categorias")].

Definition validar_nombre (v : string) : Outcome string :=
  if negb (PyStr.truthy (PyStr.strip v))
  then Raise (ValueError El_nombre_no_puede_estar_vacio)
  else Return v.

Definition Decimal_0_01 : Decimal := mkDecimal false 1 (-2).

Definition normalizar_precio (v : Decimal) : Outcome Decimal :=
  match PyDecimal.quantize_half_up v (dexp Decimal_0_01) with
  | Some q => Return q
  | None => Raise InvalidOperation
  end.

Definition normalizar (v : list string) : list string :=
  (fun c => PyStr.lower (PyStr.strip c)) <$>
    filter (fun c => PyStr.truthy c && PyStr.truthy (PyStr.strip c)) v.

(** The normalization in the words of the specification: every entry is
    trimmed and lowercased, then the entries that became empty are
    dropped. *)
Definition normalizar_palabras (v : list string) : list string :=
  filter (fun c => c ≠ "") ((fun c => PyStr.lower (PyStr.strip c)) <$> v).

(** The entries that are not in the catalog, in their order. *)
Definition desconocidas (n : list string) : list string :=
  filter (fun c => c ∉ CATALOGO_CATEGORIAS) n.

Definition validar_categorias (v : list string) : Outcome (list string) :=
  let normalizadas := normalizar v in
  if bool_decide (normalizadas = [])
  then Raise (ValueError Debe_incluir_al_menos_una_categoria_valida)
  else if bool_decide (length normalizadas ≠ size (list_to_set normalizadas : gset string))
  then Raise (ValueError Las_categorias_no_deben_repetirse)
  else
    let unknown := desconocidas normalizadas in
    if bool_decide (unknown ≠ [])
    then Raise (ValueError (Categorias_no_permitidas unknown))
    else Return normalizadas.

Definition campo_nombre : string -> Outcome (ErrorDetail + string) :=
  validate_field (str_validator nombre_info) validar_nombre.

Definition campo_precio : Decimal -> Outcome (ErrorDetail + Decimal) :=
  validate_field (decimal_validator precio_info) normalizar_precio.

Definition campo_categorias : list string -> Outcome (ErrorDetail + list string) :=
  validate_field (list_validator categorias_info) validar_categorias.

End ProductoIn_class.

(** Building the model: every field is validated, in the order of the
    class body; the failures are gathered in one [ValidationError]. *)
Definition line {A : Type} (loc : string) (r : ErrorDetail + A) : list (string * ErrorDetail) :=
  match r with
  | inl e => [(loc, e)]
  | inr _ => []
  end.

Definition bind_outcome {A B : Type} (o : Outcome A) (k : A -> Outcome B) : Outcome B :=
  match o with
  | Return a => k a
  | Raise x => Raise x
  end.

Notation "'let?' x ':=' o 'in' k" := (bind_outcome o (fun x => k))
  (at level 10, x pattern, o at level 100, k at level 200).

Definition ProductoIn_init (kw : Datos) : Outcome ProductoIn :=
  let? rn := ProductoIn_class.campo_nombre (d_nombre kw) in
  let? rp := ProductoIn_class.campo_precio (d_precio kw) in
  let? rc := ProductoIn_class.campo_categorias (d_categorias kw) in
  match rn, rp, rc with
  | inr n, inr p, inr c => Return (mkProductoIn n p c)
  | _, _, _ =>
      Raise (ValidationError (line "nombre" rn ++ line "precio" rp ++ line "categorias" rc))
  end.

Definition model_dump (prod : ProductoIn) : Datos :=
  mkDatos (nombre prod) (precio prod) (categorias prod).

Definition UUID : Type := N.

(** [class ProductoOut(ProductoIn)]: the inherited fields, then [id]. *)
Record ProductoOut : Type := mkProductoOut {
  super : ProductoIn;
  id : UUID
}.

(** [ProductoOut(id=u, **kw)] runs the inherited field validation again. *)
Definition ProductoOut_init (u : UUID) (kw : Datos) : Outcome ProductoOut :=
  let? p := ProductoIn_init kw in
  Return (mkProductoOut p u).

(** ** The process state and the handlers *)

(** The module-level dictionary [DB], and the entropy behind [uuid4]: the
    values it will return, in order, and how many were drawn. *)
Record World : Type := mkWorld {
  DB : gmap N ProductoOut;
  entropy : nat -> UUID;
  drawn : nat
}.

Definition M (A : Type) : Type := World -> Outcome A * World.

Definition ret {A : Type} (a : A) : M A := fun w => (Return a, w).

Definition raise {A : Type} (x : Exception) : M A := fun w => (Raise x, w).

Definition bind {A B : Type} (m : M A) (k : A -> M B) : M B :=
  fun w =>
    match m w with
    | (Return a, w') => k a w'
    | (Raise x, w') => (Raise x, w')
    end.

Definition lift {A : Type} (o : Outcome A) : M A := fun w => (o, w).

Notation "x <- m ;; k" := (bind m (fun x => k))
  (at level 100, m at next level, right associativity).
Notation "m ;;; k" := (bind m (fun _ => k))
  (at level 100, right associativity).

Definition uuid4 : M UUID :=
  fun w => (Return (entropy w (drawn w)), mkWorld (DB w) (entropy w) (S (drawn w))).

Definition DB_get (k : UUID) : M (option ProductoOut) :=
  fun w => (Return (DB w !! k), w).

Definition DB_contains (k : UUID) : M bool :=
  fun w => (Return (bool_decide (is_Some (DB w !! k))), w).

Definition DB_setitem (k : UUID) (v : ProductoOut) : M unit :=
  fun w => (Return tt, mkWorld (<[k := v]> (DB w)) (entropy w) (drawn w)).

Definition DB_delitem (k : UUID) : M unit :=
  fun w => (Return tt, mkWorld (delete k (DB w)) (entropy w) (drawn w)).

(** [list(DB.values())], up to the order: the dictionary lists in order of
    insertion, the map in the order of its keys, and nothing below reads
    the order. *)
Definition DB_values : M (list ProductoOut) :=
  fun w => (Return ((map_to_list (DB w)).*2), w).

Definition no_encontrado : Exception := HTTPException 404 "Producto no encontrado".

Definition crear_producto (prod : ProductoIn) : M ProductoOut :=
  u <- uuid4 ;;
  nuevo <- lift (ProductoOut_init u (model_dump prod)) ;;
  DB_setitem (id nuevo) nuevo ;;;
  ret nuevo.

Definition listar_productos : M (list ProductoOut) := DB_values.

Definition obtener_producto (producto_id : UUID) : M ProductoOut :=
  prod <- DB_get producto_id ;;
  match prod with
  | None => raise no_encontrado
  | Some p => ret p
  end.

Definition actualizar_producto (producto_id : UUID) (prod : ProductoIn) : M ProductoOut :=
  present <- DB_contains producto_id ;;
  if negb present then raise no_encontrado
  else
    actualizado <- lift (ProductoOut_init producto_id (model_dump prod)) ;;
    DB_setitem producto_id actualizado ;;;
    ret actualizado.

Definition eliminar_producto (producto_id : UUID) : M unit :=
  present <- DB_contains producto_id ;;
  if negb present then raise no_encontrado
  else DB_delitem producto_id ;;; ret tt.

(** ** The HTTP surface *)

Inductive Request : Type :=
| POST_productos (body : Datos)
| GET_productos
| GET_producto (producto_id : UUID)
| PUT_producto (producto_id : UUID) (body : Datos)
| DELETE_producto (producto_id : UUID).

Inductive Body : Type :=
| JProducto (p : ProductoOut)
| JLista (l : list ProductoOut)
| JDetail (detail : string)
| JErrors (errors : list (string * ErrorDetail))
| JEmpty.

Record Response : Type := mkResponse {
  status : nat;
  body : Body
}.

(** The framework around a handler: its return value is the body of the
    declared status, an [HTTPException] gives its own status, anything
    else is a 500. *)
Definition respond {A : Type} (ok : nat) (to_body : A -> Body) (m : M A)
    : World -> Response * World :=
  fun w =>
    match m w with
    | (Return a, w') => (mkResponse ok (to_body a), w')
    | (Raise (HTTPException s d), w') => (mkResponse s (JDetail d), w')
    | (Raise _, w') => (mkResponse 500 (JDetail "Internal Server Error"), w')
    end.

(** A [ProductoIn] parameter: the body is validated before the handler is
    called, and a [ValidationError] is answered with a 422. *)
Definition with_body (body : Datos) (k : ProductoIn -> World -> Response * World)
    : World -> Response * World :=
  fun w =>
    match ProductoIn_init body with
    | Return prod => k prod w
    | Raise (ValidationError errs) => (mkResponse 422 (JErrors errs), w)
    | Raise _ => (mkResponse 500 (JDetail "Internal Server Error"), w)
    end.

Definition handle (r : Request) : World -> Response * World :=
  match r with
  | POST_productos body =>
      with_body body (fun prod => respond 201 JProducto (crear_producto prod))
  | GET_productos => respond 200 JLista listar_productos
  | GET_producto i => respond 200 JProducto (obtener_producto i)
  | PUT_producto i body =>
      with_body body (fun prod => respond 200 JProducto (actualizar_producto i prod))
  | DELETE_producto i => respond 204 (fun _ => JEmpty) (eliminar_producto i)
  end.

(** A run of the service: the responses, in order, and the final state. *)
Fixpoint serve (rs : list Request) (w : World) : list Response * World :=
  match rs with
  | [] => ([], w)
  | r :: rs' =>
      let '(resp, w1) := handle r w in
      let '(resps, w2) := serve rs' w1 in
      (resp :: resps, w2)
  end.

(** The ids handed out by the creations of a run. *)
Definition created_id (resp : Response) : option UUID :=
  match body resp with
  | JProducto p => if Nat.eqb (status resp) 201 then Some (id p) else None
  | _ => None
  end.

Definition created_ids (resps : list Response) : list UUID :=
  omap created_id resps.

Definition start (e : nat -> UUID) : World := mkWorld ∅ e 0.

(** ** Sample inputs *)

Definition miel : Datos :=
  mkDatos "Miel de abeja" d_6_00 ["Organicos"; "OFERTAS"].

(** Three letters followed by 58 spaces: 61 code points. *)
Definition nombre_61 : string :=
  "abc" ++ String.concat "" (replicate 58 " ").

(** ** Predicates of the statements *)

(** The catalog, as a list. *)
Definition catalogo_lista : list string :=
  ["granos"; "frutas"; "hortalizas"; "lacteos"; "carnes";
   "procesados"; "organicos"; "ofertas"; "semillas"; "bebidas"].

(** What an accepted price looks like once stored. *)
Definition precio_ok (q : Decimal) : Prop :=
  dsign q = false ∧ dexp q = (-2)%Z ∧ (0 < coef q < 10 ^ 10)%N.

(** Every product of the store sits under its own id. *)
Definition keyed (w : World) : Prop :=
  ∀ k v, DB w !! k = Some v → id v = k.

(** ** The catalog endpoint *)

(** [a <= b] on [str]: code point by code point, a proper prefix first. *)
Definition str_le (a b : string) : Prop := String.leb a b = true.

#[global] Instance str_le_dec : RelDecision str_le :=
  fun a b => decide (String.leb a b = true).

(** [sorted(xs)] on strings, a merge sort in ascending order. *)
Definition sorted (l : list string) : list string := merge_sort str_le l.

(** [sorted(CATALOGO_CATEGORIAS)]: the set is iterated in some order of
    its own and the result is the sorted list of its elements. *)
Definition categorias_permitidas : M (list string) :=
  ret (sorted (elements CATALOGO_CATEGORIAS)).

(** ** More predicates of the statements *)

(** The one key a request may write: the next draw for a creation, the
    path parameter for an update or a deletion. *)
Definition target (r : Request) (w : World) : option UUID :=
  match r with
  | POST_productos _ => Some (entropy w (drawn w))
  | PUT_producto i _ => Some i
  | DELETE_producto i => Some i
  | GET_productos => None
  | GET_producto _ => None
  end.

(** A product whose fields pass the validation of [ProductoIn] unchanged. *)
Definition producto_valido (p : ProductoIn) : Prop :=
  ProductoIn_init (model_dump p) = Return p.

(** Every stored product is a valid one. *)
Definition store_valid (w : World) : Prop :=
  ∀ k v, DB w !! k = Some v → producto_valido (super v).

(** Every key of the store is one of the draws made so far. *)
Definition keys_drawn (w : World) : Prop :=
  ∀ k, is_Some (DB w !! k) → ∃ n, n < drawn w ∧ k = entropy w n.

(** How many responses of a run carry a given status. *)
Definition count_status (s : nat) (resps : list Response) : nat :=
  length (filter (fun r => status r = s) resps).

(** ** Trimmed and lowercased, in the words of the specification *)

(** The uppercase letters below U+0100: A..Z, and U+00C0..U+00DE but for
    the multiplication sign U+00D7. *)
Definition is_upper (c : ascii) : bool :=
  let n := N_of_ascii c in
  ((65 <=? n) && (n <=? 90) || (192 <=? n) && (n <=? 222) && negb (n =? 215))%N.

(** [b] is [a] lowercased: the letter 32 code points further for an
    uppercase letter, [a] itself for any other character. *)
Definition lower_char_of (a b : ascii) : Prop :=
  if is_upper a then N_of_ascii b = (N_of_ascii a + 32)%N else b = a.

(** [t] is [s] lowercased, character by character. *)
Inductive lowercase_of : string -> string -> Prop :=
| lowercase_nil : lowercase_of "" ""
| lowercase_cons (a b : ascii) (s t : string) :
    lower_char_of a b -> lowercase_of s t -> lowercase_of (String a s) (String b t).

Fixpoint has_upper (s : string) : bool :=
  match s with
  | EmptyString => false
  | String a r => is_upper a || has_upper r
  end.

Fixpoint all_space (s : string) : bool :=
  match s with
  | EmptyString => true
  | String a r => PyStr.isspace a && all_space r
  end.

Definition starts_with_space (s : string) : bool :=
  match s with
  | EmptyString => false
  | String a _ => PyStr.isspace a
  end.

Fixpoint ends_with_space (s : string) : bool :=
  match s with
  | EmptyString => false
  | String a r =>
      match r with
      | EmptyString => PyStr.isspace a
      | String _ _ => ends_with_space r
      end
  end.

(** [t] is [c] trimmed: [c] without a run of whitespace at its start and
    one at its end, and [t] neither starts nor ends with whitespace. *)
Definition trimmed_of (c t : string) : Prop :=
  ∃ l r, c = String.append l (String.append t r) ∧
         all_space l = true ∧ all_space r = true ∧
         starts_with_space t = false ∧ ends_with_space t = false.

(** [n] is the normal form of the entry [c]: [c] trimmed, then lowercased,
    with no uppercase letter left. *)
Definition normal_form_of (c n : string) : Prop :=
  ∃ t, trimmed_of c t ∧ lowercase_of t n ∧ has_upper n = false.

(** * Properties *)

(** ** Strings *)

Section PyStrFacts.
Import PyStr.

Lemma truthy_true (s : string) : truthy s = true ↔ s ≠ "".
Proof. destruct s; simpl; split; congruence. Qed.

Lemma truthy_false (s : string) : truthy s = false ↔ s = "".
Proof. destruct s; simpl; split; congruence. Qed.

Lemma lower_truthy (s : string) : truthy (lower s) = truthy s.
Proof. by destruct s. Qed.

Lemma lower_length (s : string) : len (lower s) = len s.
Proof. unfold len. induction s; simpl; congruence. Qed.

Lemma strip_truthy_raw (s : string) : truthy (strip s) = true → truthy s = true.
Proof. by destruct s. Qed.

(** The guard [c and c.strip()] of the comprehension keeps exactly the
    entries whose normal form is not empty. *)
Lemma guard_normal_form (c : string) :
  truthy c && truthy (strip c) = truthy (lower (strip c)).
Proof.
  rewrite lower_truthy. destruct (truthy (strip c)) eqn:E.
  - by rewrite (strip_truthy_raw _ E).
  - by rewrite andb_false_r.
Qed.

End PyStrFacts.

(** ** The catalog *)

Lemma catalogo_elem_of (c : string) :
  c ∈ CATALOGO_CATEGORIAS ↔ c ∈ catalogo_lista.
Proof.
  unfold CATALOGO_CATEGORIAS, catalogo_lista.
  rewrite !elem_of_union, !elem_of_singleton, !elem_of_cons, elem_of_nil. tauto.
Qed.

(** Every label of the catalog is its own normal form. *)
Lemma catalogo_canonical (c : string) :
  c ∈ CATALOGO_CATEGORIAS →
  PyStr.lower c = c ∧ PyStr.strip c = c ∧ PyStr.truthy c = true.
Proof.
  rewrite catalogo_elem_of. unfold catalogo_lista.
  rewrite !elem_of_cons, elem_of_nil.
  intros H. repeat (destruct H as [-> | H]; [by repeat split |]). done.
Qed.

Section Normalizar.
Import ProductoIn_class.

Lemma normalizar_refines (v : list string) :
  normalizar v = normalizar_palabras v.
Proof.
  unfold normalizar, normalizar_palabras.
  induction v as [| c v IH]; [done |].
  rewrite fmap_cons, !filter_cons, <- IH.
  pose proof (guard_normal_form c) as G.
  pose proof (truthy_true (PyStr.lower (PyStr.strip c))) as T.
  repeat case_decide; try done.
  - rewrite G in *. apply Is_true_true in H. tauto.
  - rewrite G in *. apply Is_true_false in H. destruct T as [_ T]. by rewrite T in H.
Qed.
End Normalizar.

(** ** Decimals *)

Section DecimalFacts.
Import PyDecimal.
Local Open Scope N_scope.

Lemma ndigits_aux_bounds (fuel : nat) (n : N) :
  n < 2 ^ N.of_nat fuel →
  1 ≤ ndigits_aux fuel n ∧ n < 10 ^ ndigits_aux fuel n ∧
  (n ≠ 0 → 10 ^ (ndigits_aux fuel n - 1) ≤ n).
Proof.
  revert n. induction fuel as [| f IH]; intros n Hn.
  - simpl in *. assert (n = 0) by lia. subst. split_and!; [lia | done | lia].
  - cbn [ndigits_aux]. destruct (N.ltb_spec n 10) as [Hlt | Hge].
    + split_and!; [lia | done |]. intros. change (10 ^ (1 - 1)) with 1. lia.
    + assert (Hq : n / 10 < 2 ^ N.of_nat f).
      { apply N.Div0.div_lt_upper_bound.
        rewrite Nat2N.inj_succ, N.pow_succ_r' in Hn. lia. }
      destruct (IH _ Hq) as (H1 & H2 & H3).
      set (a := ndigits_aux f (n / 10)) in *.
      pose proof (N.Div0.div_mod n 10) as Hdm.
      pose proof (N.mod_lt n 10 ltac:(lia)) as Hm.
      split_and!; [lia | |].
      * rewrite N.pow_add_r. change (10 ^ 1) with 10.
        clear H3 IH. clearbody a. revert H2 Hdm Hm.
        generalize (10 ^ a) (n / 10) (n mod 10). lia.
      * intros _. replace (1 + a - 1) with (N.succ (a - 1)) by lia.
        rewrite N.pow_succ_r'.
        assert (Hnz : n / 10 ≠ 0) by (intros E; rewrite E in Hdm; lia).
        specialize (H3 Hnz). clear IH H2. clearbody a. revert H3 Hdm Hm.
        generalize (10 ^ (a - 1)) (n / 10) (n mod 10). lia.
Qed.

Lemma ndigits_bounds (n : N) :
  1 ≤ ndigits n ∧ n < 10 ^ ndigits n ∧ (n ≠ 0 → 10 ^ (ndigits n - 1) ≤ n).
Proof.
  apply ndigits_aux_bounds. rewrite N2Nat.id. apply N.size_gt.
Qed.

Lemma ndigits_le (n k : N) : 1 ≤ k → n < 10 ^ k → ndigits n ≤ k.
Proof.
  intros Hk Hn. destruct (ndigits_bounds n) as (H1 & _ & H3).
  destruct (N.eq_dec n 0) as [-> | Hne]; [by vm_compute in H1 |- * |].
  specialize (H3 Hne).
  destruct (N.le_gt_cases (ndigits n) k) as [| Hgt]; [done |].
  assert (10 ^ k ≤ 10 ^ (ndigits n - 1)) by (apply N.pow_le_mono_r; lia).
  lia.
Qed.

Lemma strip_zeros_spec (fuel : nat) (c : N) (e : Z) (c' : N) (e' : Z) :
  strip_zeros fuel c e = (c', e') →
  (e ≤ e')%Z ∧ c = c' * 10 ^ Z.to_N (e' - e).
Proof.
  revert c e. induction fuel as [| f IH]; intros c e H; cbn [strip_zeros] in H.
  - injection H as <- <-. rewrite Z.sub_diag. simpl. lia.
  - destruct (N.eqb_spec (c mod 10) 0) as [Hz | Hnz].
    + apply IH in H as [Hle Hc]. split; [lia |].
      replace (Z.to_N (e' - e)) with (N.succ (Z.to_N (e' - (e + 1)))) by lia.
      rewrite N.pow_succ_r'.
      pose proof (N.Div0.div_mod c 10) as Hdm. rewrite Hz in Hdm.
      revert Hc Hdm. generalize (10 ^ Z.to_N (e' - (e + 1))) (c / 10).
      intros P q Hq Hc. subst q. lia.
    + injection H as <- <-. rewrite Z.sub_diag. simpl. lia.
Qed.

End DecimalFacts.

(** ** The field [precio] *)

Section Precio.
Import PyDecimal ProductoIn_class.

(** The constraints of [precio], spelled out. *)
Lemma decimal_validator_precio (d : Decimal) :
  decimal_validator precio_info d =
    if (10 <? (digits_info d).2)%N && (10 <? (digits_info (normalize d)).2)%N
    then inl decimal_max_digits
    else if (2 <? (digits_info d).1)%N && (2 <? (digits_info (normalize d)).1)%N
    then inl decimal_max_places
    else if (8 <? (digits_info d).2 - (digits_info d).1)%N
    then inl decimal_whole_digits
    else if negb (decimal_gt d 0) then inl greater_than else inr d.
Proof.
  unfold decimal_validator.
  destruct (digits_info d), (digits_info (normalize d)). reflexivity.
Qed.

Lemma pow10_pos (k : N) : (0 < 10 ^ k)%N.
Proof. apply N.neq_0_lt_0, N.pow_nonzero. lia. Qed.

Lemma accepted_facts (d d' : Decimal) :
  decimal_validator precio_info d = inr d' →
  d' = d ∧ dsign d = false ∧ coef d ≠ 0%N ∧
  (Z.of_N (ndigits (coef d)) + dexp d ≤ 8)%Z ∧
  ((-2 ≤ dexp d)%Z ∨ ∃ m, coef d = (m * 10 ^ Z.to_N (-2 - dexp d))%N).
Proof.
  rewrite decimal_validator_precio.
  destruct ((10 <? _)%N && _) eqn:Hmd; [intros E; discriminate E |].
  destruct ((2 <? _)%N && _) eqn:Hdp; [intros E; discriminate E |].
  destruct (8 <? _)%N eqn:Hwd; [intros E; discriminate E |].
  destruct (negb _) eqn:Hgt; [intros E; discriminate E |].
  intros [= <-]. apply negb_false_iff in Hgt.
  assert (Hs : dsign d = false ∧ coef d ≠ 0%N).
  { unfold decimal_gt in Hgt. destruct (dsign d); [done |]. split; [done |].
    intros E. rewrite E in Hgt. simpl in Hgt.
    destruct (0 <=? dexp d)%Z; apply N.ltb_lt in Hgt; lia. }
  destruct Hs as [Hs Hc]. split_and!; try done.
  - apply N.ltb_ge in Hwd. unfold digits_info in Hwd.
    destruct (Z.leb_spec 0 (dexp d)); simpl in Hwd; lia.
  - destruct (Z.le_gt_cases (-2) (dexp d)) as [| Hlt]; [by left | right].
    apply andb_false_iff in Hdp as [Hdp | Hdp]; apply N.ltb_ge in Hdp.
    { unfold digits_info in Hdp.
      destruct (Z.leb_spec 0 (dexp d)); simpl in Hdp; lia. }
    unfold normalize in Hdp. apply N.eqb_neq in Hc. rewrite Hc in Hdp.
    destruct (strip_zeros _ _ _) as [c' e'] eqn:Hz.
    apply strip_zeros_spec in Hz as [Hle Hz].
    assert (He' : (-2 ≤ e')%Z).
    { unfold digits_info in Hdp. simpl in Hdp.
      destruct (Z.leb_spec 0 e'); simpl in Hdp; lia. }
    exists (c' * 10 ^ Z.to_N (e' + 2))%N.
    rewrite <- N.mul_assoc, <- N.pow_add_r.
    rewrite Hz at 1. do 2 f_equal. lia.
Qed.

(** The coefficient after [quantize]: nothing is rounded away. *)
Lemma rescale_accepted (d d' : Decimal) :
  decimal_validator precio_info d = inr d' →
  (0 < rescale_half_up d (-2) < 10 ^ 10)%N ∧
  same_value d (mkDecimal (dsign d) (rescale_half_up d (-2)) (-2)).
Proof.
  intros H. apply accepted_facts in H as (_ & Hs & Hc & Hw & Hp).
  destruct (ndigits_bounds (coef d)) as (Hn1 & Hn2 & _).
  unfold rescale_half_up, same_value, signed. rewrite Hs. cbn [dsign coef dexp].
  destruct (Z.leb_spec (-2) (dexp d)) as [Hge | Hlt].
  - rewrite Z.min_r by lia. rewrite Z.sub_diag, Z.mul_1_r.
    rewrite N2Z.inj_mul, N2Z.inj_pow, Z2N.id by lia.
    split; [| done]. split.
    + pose proof (pow10_pos (Z.to_N (dexp d - -2))). nia.
    + apply N.lt_le_trans with (10 ^ ndigits (coef d) * 10 ^ Z.to_N (dexp d - -2))%N.
      * apply N.mul_lt_mono_pos_r; [apply pow10_pos | done].
      * rewrite <- N.pow_add_r. apply N.pow_le_mono_r; lia.
  - destruct Hp as [? | [m Hm]]; [lia |].
    replace (-2 - dexp d)%Z with (- 2 - dexp d)%Z in * by lia.
    set (p := (10 ^ Z.to_N (- 2 - dexp d))%N) in *.
    assert (Hp : (0 < p)%N) by apply pow10_pos.
    assert (Hmod : (coef d mod p = 0)%N) by (rewrite Hm; apply N.Div0.mod_mul).
    assert (Hdiv : (coef d / p = m)%N) by (rewrite Hm; apply N.div_mul; lia).
    rewrite Hmod, Hdiv.
    destruct (N.leb_spec p (2 * 0)) as [? | _]; [lia |].
    rewrite Z.min_l by lia. rewrite Z.sub_diag, Z.mul_1_r.
    split.
    + split; [nia |].
      assert (Hlt' : (m * p < 10 ^ 10 * p)%N).
      { rewrite <- Hm. eapply N.lt_le_trans; [exact Hn2 |].
        unfold p. rewrite <- N.pow_add_r. apply N.pow_le_mono_r; lia. }
      nia.
    + rewrite Hm, N2Z.inj_mul. unfold p. rewrite N2Z.inj_pow, Z2N.id by lia. done.
Qed.

Lemma quantize_ok (s : bool) (c : N) :
  (0 < c < 10 ^ 10)%N →
  quantize_half_up (mkDecimal s c (-2)) (-2) = Some (mkDecimal s c (-2)).
Proof.
  intros Hc. unfold quantize_half_up, adjusted, rescale_half_up. cbn [dsign coef dexp].
  assert (Hn : (ndigits c ≤ 10)%N) by (apply ndigits_le; lia).
  destruct (N.eqb_spec c 0); [lia |].
  change (-2 <=? -2)%Z with true. cbn match. change (Z.to_N (-2 - -2)) with 0%N.
  rewrite N.pow_0_r, N.mul_1_r.
  unfold Emax, prec.
  destruct (Z.ltb_spec 999999 (-2 + Z.of_N (ndigits c) - 1)); [lia |].
  destruct (Z.ltb_spec (Z.of_N 28) (-2 + Z.of_N (ndigits c) - 1 - -2 + 1)); [lia |].
  destruct (N.ltb_spec 28 (ndigits c)); [lia | done].
Qed.

Lemma quantize_accepted (d d' : Decimal) :
  decimal_validator precio_info d = inr d' →
  quantize_half_up d (-2) = Some (mkDecimal false (rescale_half_up d (-2)) (-2)).
Proof.
  intros H. pose proof (rescale_accepted _ _ H) as [Hr _].
  apply accepted_facts in H as (_ & Hs & Hc & Hw & _).
  assert (Hn : (ndigits (rescale_half_up d (-2)) ≤ 10)%N) by (apply ndigits_le; lia).
  unfold quantize_half_up, adjusted. rewrite Hs.
  destruct (N.eqb_spec (coef d) 0); [done |].
  unfold Emax, prec.
  destruct (Z.ltb_spec 999999 (dexp d + Z.of_N (ndigits (coef d)) - 1)); [lia |].
  destruct (Z.ltb_spec (Z.of_N 28) (dexp d + Z.of_N (ndigits (coef d)) - 1 - -2 + 1));
    [lia |].
  cbv zeta.
  destruct (Z.ltb_spec 999999 (-2 + Z.of_N (ndigits (rescale_half_up d (-2))) - 1));
    [lia |].
  destruct (N.ltb_spec 28 (ndigits (rescale_half_up d (-2)))); [lia | done].
Qed.

End Precio.

Section PrecioField.
Import PyDecimal ProductoIn_class.

Lemma precio_ok_validator (q : Decimal) :
  precio_ok q → decimal_validator precio_info q = inr q.
Proof.
  intros (Hs & He & Hc). rewrite decimal_validator_precio.
  assert (Hn : (ndigits (coef q) ≤ 10)%N) by (apply ndigits_le; lia).
  assert (Hi : digits_info q = (2%N, N.max (ndigits (coef q)) 2)).
  { unfold digits_info. by rewrite He. }
  rewrite !Hi. cbn [fst snd].
  destruct (N.ltb_spec 10 (N.max (ndigits (coef q)) 2)); [lia |].
  cbn [andb]. change (2 <? 2)%N with false. cbn [andb].
  destruct (N.ltb_spec 8 (N.max (ndigits (coef q)) 2 - 2)); [lia |].
  unfold decimal_gt. rewrite Hs, He. cbn [Z.leb Z.compare].
  destruct (N.ltb_spec (N.of_nat 0 * 10 ^ Z.to_N (- -2)) (coef q)); [done |].
  simpl in *. lia.
Qed.

(** An accepted price is stored with exponent -2, below 10^8, positive,
    and denotes the number that was sent. *)
Lemma campo_precio_accepted (d q : Decimal) :
  campo_precio d = Return (inr q) → precio_ok q ∧ same_value d q.
Proof.
  unfold campo_precio, validate_field, normalizar_precio.
  change (dexp Decimal_0_01) with (-2)%Z.
  destruct (decimal_validator precio_info d) as [e | d'] eqn:Hv; [easy |].
  pose proof (accepted_facts _ _ Hv) as (-> & Hs & _).
  rewrite (quantize_accepted _ _ Hv). intros [= <-].
  pose proof (rescale_accepted _ _ Hv) as [Hr Hsv]. rewrite Hs in Hsv.
  by split.
Qed.

(** The field never lets an exception through: after the constraints,
    [quantize] cannot overflow the context. *)
Lemma campo_precio_returns (d : Decimal) : ∃ r, campo_precio d = Return r.
Proof.
  unfold campo_precio, validate_field, normalizar_precio.
  change (dexp Decimal_0_01) with (-2)%Z.
  destruct (decimal_validator precio_info d) as [e | d'] eqn:Hv; [by eexists |].
  pose proof (accepted_facts _ _ Hv) as (-> & _).
  rewrite (quantize_accepted _ _ Hv). by eexists.
Qed.

Lemma campo_precio_stable (q : Decimal) :
  precio_ok q → campo_precio q = Return (inr q).
Proof.
  intros Hq. unfold campo_precio, validate_field, normalizar_precio.
  change (dexp Decimal_0_01) with (-2)%Z.
  rewrite (precio_ok_validator _ Hq).
  destruct q as [s c e]. destruct Hq as (Hs & He & Hc). simpl in *. subst.
  by rewrite quantize_ok.
Qed.

End PrecioField.

(** ** The field [nombre] *)

Section NombreField.
Import ProductoIn_class.

(** [Field] keeps the two length bounds; [strip_whitespace] is not one of
    its constraints and ends up in [json_schema_extra]. *)
Lemma nombre_info_eq :
  nombre_info =
    mkFieldInfo None None None (Some 3) (Some 60) None [("strip_whitespace", KBool true)].
Proof. reflexivity. Qed.

Lemma campo_nombre_spec (v s : string) :
  campo_nombre v = Return (inr s) ↔
  s = v ∧ (3 ≤ PyStr.len v ≤ 60)%nat ∧ PyStr.strip v ≠ "".
Proof.
  unfold campo_nombre, validate_field, str_validator, validar_nombre.
  rewrite nombre_info_eq. cbn [f_min_length f_max_length exceeds].
  rewrite <- truthy_true.
  destruct (N.ltb_spec (N.of_nat (PyStr.len v)) (N.of_nat 3)).
  { split; [easy | lia]. }
  destruct (N.ltb_spec (N.of_nat 60) (N.of_nat (PyStr.len v))).
  { split; [easy | lia]. }
  destruct (PyStr.truthy (PyStr.strip v)); simpl.
  - split; [intros [= <-] | intros (-> & _)]; [| done]. split_and!; [done | lia | lia | done].
  - split; [easy | intros (_ & _ & ?); done].
Qed.

Lemma campo_nombre_returns (v : string) : ∃ r, campo_nombre v = Return r.
Proof.
  unfold campo_nombre, validate_field, validar_nombre.
  destruct (str_validator nombre_info v); [by eexists |].
  destruct (negb _); by eexists.
Qed.

Lemma campo_nombre_stable (v s : string) :
  campo_nombre v = Return (inr s) → campo_nombre s = Return (inr s).
Proof. intros H. pose proof H as Hs. apply campo_nombre_spec in Hs as [-> _]. done. Qed.

End NombreField.

(** ** The field [categorias] *)

Section CategoriasField.
Import ProductoIn_class.

Lemma categorias_info_eq :
  categorias_info =
    mkFieldInfo None None None (Some 1) (Some 10) (Some "Lista de categorias") [].
Proof. reflexivity. Qed.

(** The length bounds bear on the sequence as received. *)
Lemma list_validator_categorias (v : list string) :
  list_validator categorias_info v =
    if (length v <? 1)%nat then inl too_short
    else if (10 <? length v)%nat then inl too_long else inr v.
Proof.
  unfold list_validator. rewrite categorias_info_eq.
  cbn [f_min_length f_max_length exceeds].
  destruct (N.ltb_spec (N.of_nat (length v)) (N.of_nat 1)),
    (Nat.ltb_spec (length v) 1); try lia; [done |].
  destruct (N.ltb_spec (N.of_nat 10) (N.of_nat (length v))),
    (Nat.ltb_spec 10 (length v)); try lia; done.
Qed.

Lemma list_to_set_cons_size (x : string) (l : list string) :
  size (list_to_set (x :: l) : gset string) =
    if decide (x ∈ l) then size (list_to_set l : gset string)
    else S (size (list_to_set l : gset string)).
Proof.
  rewrite list_to_set_cons. case_decide as Hin.
  - f_equal. apply subseteq_union_1_L, singleton_subseteq_l.
    by apply elem_of_list_to_set.
  - rewrite size_union, size_singleton; [done |].
    apply disjoint_singleton_l. by rewrite elem_of_list_to_set.
Qed.

Lemma size_list_to_set_le (l : list string) :
  (size (list_to_set l : gset string) ≤ length l)%nat.
Proof.
  induction l as [| x l IH].
  - by rewrite list_to_set_nil, size_empty.
  - rewrite list_to_set_cons_size. cbn [length]. case_decide; lia.
Qed.

(** [len(l) != len(set(l))] detects exactly the repetitions. *)
Lemma length_size_NoDup (l : list string) :
  length l = size (list_to_set l : gset string) ↔ NoDup l.
Proof.
  split; [| intros H; by rewrite size_list_to_set].
  induction l as [| x l IH]; [constructor |].
  rewrite list_to_set_cons_size. cbn [length]. intros Hlen.
  pose proof (size_list_to_set_le l) as Hle.
  case_decide as Hin; [lia |].
  constructor; [done |]. apply IH. lia.
Qed.

(** The three checks of [validar_categorias], in their order. *)
Lemma validar_categorias_cases (v : list string) :
  validar_categorias v =
    if decide (normalizar v = []) then
      Raise (ValueError Debe_incluir_al_menos_una_categoria_valida)
    else if decide (NoDup (normalizar v)) then
      if decide (desconocidas (normalizar v) = []) then Return (normalizar v)
      else Raise (ValueError (Categorias_no_permitidas (desconocidas (normalizar v))))
    else Raise (ValueError Las_categorias_no_deben_repetirse).
Proof.
  unfold validar_categorias, desconocidas. cbv zeta.
  destruct (decide (normalizar v = [])) as [E | E].
  { by rewrite bool_decide_eq_true_2. }
  rewrite (bool_decide_eq_false_2 _ E).
  destruct (decide (NoDup (normalizar v))) as [Hnd | Hnd].
  - rewrite bool_decide_eq_false_2 by (rewrite length_size_NoDup; tauto).
    destruct (decide (filter _ (normalizar v) = [])) as [F | F].
    + rewrite bool_decide_eq_false_2; [done | tauto].
    + by rewrite bool_decide_eq_true_2.
  - rewrite bool_decide_eq_true_2; [done |]. by rewrite length_size_NoDup.
Qed.

Lemma desconocidas_nil (n : list string) :
  desconocidas n = [] ↔ Forall (fun c => c ∈ CATALOGO_CATEGORIAS) n.
Proof.
  unfold desconocidas. induction n as [| c n IH]; [by split |].
  rewrite filter_cons, Forall_cons. destruct (decide (c ∉ CATALOGO_CATEGORIAS)).
  - split; [easy | tauto].
  - rewrite IH. split; [| tauto]. intros H. split; [| done].
    by destruct (decide (c ∈ CATALOGO_CATEGORIAS)).
Qed.

Lemma normalizar_canonical (n : list string) :
  Forall (fun c => c ∈ CATALOGO_CATEGORIAS) n → normalizar n = n.
Proof.
  unfold normalizar. induction 1 as [| c n Hc _ IH]; [done |].
  destruct (catalogo_canonical c Hc) as (Hl & Hs & Ht).
  rewrite filter_cons. rewrite Hs, Ht.
  destruct (decide _) as [_ | F]; [| by destruct F].
  rewrite fmap_cons, IH, Hs, Hl. done.
Qed.

Lemma normalizar_length (v : list string) : (length (normalizar v) ≤ length v)%nat.
Proof. unfold normalizar. rewrite length_fmap. apply length_filter. Qed.

Lemma campo_categorias_spec (v n : list string) :
  campo_categorias v = Return (inr n) ↔
  (1 ≤ length v ≤ 10)%nat ∧ n = normalizar v ∧ n ≠ [] ∧ NoDup n ∧
  Forall (fun c => c ∈ CATALOGO_CATEGORIAS) n.
Proof.
  unfold campo_categorias, validate_field.
  rewrite list_validator_categorias.
  destruct (Nat.ltb_spec (length v) 1); [split; [easy | lia] |].
  destruct (Nat.ltb_spec 10 (length v)); [split; [easy | lia] |].
  rewrite validar_categorias_cases.
  destruct (decide (normalizar v = [])) as [E | E].
  { split; [easy | intros (_ & -> & ? & _); done]. }
  destruct (decide (NoDup (normalizar v))) as [Hnd | Hnd]; cycle 1.
  { split; [easy | intros (_ & -> & _ & ? & _); done]. }
  destruct (decide (desconocidas (normalizar v) = [])) as [F | F].
  - split; [intros [= <-] | intros (_ & -> & _); done].
    split_and!; try done. by apply desconocidas_nil.
  - split; [easy | intros (_ & -> & _ & _ & ?)]. by apply desconocidas_nil in H1.
Qed.

Lemma campo_categorias_returns (v : list string) : ∃ r, campo_categorias v = Return r.
Proof.
  unfold campo_categorias, validate_field.
  destruct (list_validator categorias_info v) as [e | x]; [by eexists |].
  rewrite validar_categorias_cases. repeat case_decide; by eexists.
Qed.

Lemma campo_categorias_stable (v n : list string) :
  campo_categorias v = Return (inr n) → campo_categorias n = Return (inr n).
Proof.
  rewrite !campo_categorias_spec. intros (Hlen & Hn & Hne & Hnd & Hc).
  pose proof (normalizar_length v). rewrite (normalizar_canonical n Hc).
  split_and!; try done.
  - destruct n; [done | simpl; lia].
  - subst n. lia.
Qed.

End CategoriasField.

(** ** The model [ProductoIn] *)

Section Modelo.
Import ProductoIn_class.

Lemma ProductoIn_init_Return (kw : Datos) (p : ProductoIn) :
  ProductoIn_init kw = Return p ↔
  campo_nombre (d_nombre kw) = Return (inr (nombre p)) ∧
  campo_precio (d_precio kw) = Return (inr (precio p)) ∧
  campo_categorias (d_categorias kw) = Return (inr (categorias p)).
Proof.
  unfold ProductoIn_init, bind_outcome.
  destruct (campo_nombre_returns (d_nombre kw)) as [rn ->].
  destruct (campo_precio_returns (d_precio kw)) as [rp ->].
  destruct (campo_categorias_returns (d_categorias kw)) as [rc ->].
  destruct p as [n q c]. cbn [nombre precio categorias].
  destruct rn, rp, rc; split; try easy.
  - intros [= -> -> ->]. done.
  - intros ([= ->] & [= ->] & [= ->]). done.
Qed.

(** Building the model either returns it or raises a [ValidationError]
    with the lines of the fields that failed, in the order of the class. *)
Lemma ProductoIn_init_outcomes (kw : Datos) :
  ∃ rn rp rc,
    campo_nombre (d_nombre kw) = Return rn ∧
    campo_precio (d_precio kw) = Return rp ∧
    campo_categorias (d_categorias kw) = Return rc ∧
    ProductoIn_init kw =
      match rn, rp, rc with
      | inr n, inr p, inr c => Return (mkProductoIn n p c)
      | _, _, _ =>
          Raise (ValidationError
                   (line "nombre" rn ++ line "precio" rp ++ line "categorias" rc))
      end.
Proof.
  unfold ProductoIn_init, bind_outcome.
  destruct (campo_nombre_returns (d_nombre kw)) as [rn ->].
  destruct (campo_precio_returns (d_precio kw)) as [rp ->].
  destruct (campo_categorias_returns (d_categorias kw)) as [rc ->].
  by exists rn, rp, rc.
Qed.

Lemma ProductoIn_init_categorias_line (kw : Datos) (e : ErrorDetail) :
  campo_categorias (d_categorias kw) = Return (inl e) →
  ∃ errs, ProductoIn_init kw = Raise (ValidationError errs) ∧
          ∀ e', ("categorias", e') ∈ errs ↔ e' = e.
Proof.
  intros Hc. destruct (ProductoIn_init_outcomes kw) as (rn & rp & rc & _ & _ & Hrc & ->).
  rewrite Hc in Hrc. injection Hrc as <-.
  eexists. split; [by destruct rn, rp |].
  intros e'. rewrite !elem_of_app.
  destruct rn, rp; cbn [line]; rewrite ?elem_of_cons, ?elem_of_nil;
    split; try (intros ->; tauto); intros H;
    repeat (destruct H as [H | H]); try done; congruence.
Qed.

(** Validation is idempotent: the fields of a model pass validation
    again and come out unchanged. *)
Lemma ProductoIn_init_stable (kw : Datos) (p : ProductoIn) :
  ProductoIn_init kw = Return p → ProductoIn_init (model_dump p) = Return p.
Proof.
  rewrite !ProductoIn_init_Return. cbn [model_dump d_nombre d_precio d_categorias].
  intros (Hn & Hp & Hc). split_and!.
  - by eapply campo_nombre_stable.
  - apply campo_precio_stable. by apply campo_precio_accepted in Hp as [? _].
  - by eapply campo_categorias_stable.
Qed.

End Modelo.

(** ** The store *)

Section Store.

Lemma crear_producto_validated (kw : Datos) (p : ProductoIn) (w : World) :
  ProductoIn_init kw = Return p →
  let u := entropy w (drawn w) in
  crear_producto p w =
    (Return (mkProductoOut p u),
     mkWorld (<[u := mkProductoOut p u]> (DB w)) (entropy w) (S (drawn w))).
Proof.
  intros H. apply ProductoIn_init_stable in H.
  unfold crear_producto, bind, uuid4, lift, ProductoOut_init, bind_outcome,
    DB_setitem, ret.
  cbn [entropy drawn DB]. rewrite H. reflexivity.
Qed.

Lemma obtener_producto_present (i : UUID) (v : ProductoOut) (w : World) :
  DB w !! i = Some v → obtener_producto i w = (Return v, w).
Proof. intros H. unfold obtener_producto, bind, DB_get, ret. by rewrite H. Qed.

Lemma obtener_producto_absent (i : UUID) (w : World) :
  DB w !! i = None → obtener_producto i w = (Raise no_encontrado, w).
Proof. intros H. unfold obtener_producto, bind, DB_get, raise. by rewrite H. Qed.

Lemma actualizar_producto_absent (i : UUID) (prod : ProductoIn) (w : World) :
  DB w !! i = None → actualizar_producto i prod w = (Raise no_encontrado, w).
Proof.
  intros H. unfold actualizar_producto, bind, DB_contains, raise. rewrite H.
  rewrite bool_decide_eq_false_2; [done |]. by intros [? ?].
Qed.

Lemma eliminar_producto_absent (i : UUID) (w : World) :
  DB w !! i = None → eliminar_producto i w = (Raise no_encontrado, w).
Proof.
  intros H. unfold eliminar_producto, bind, DB_contains, raise. rewrite H.
  rewrite bool_decide_eq_false_2; [done |]. by intros [? ?].
Qed.

Lemma eliminar_producto_present (i : UUID) (v : ProductoOut) (w : World) :
  DB w !! i = Some v →
  eliminar_producto i w = (Return tt, mkWorld (delete i (DB w)) (entropy w) (drawn w)).
Proof.
  intros H. unfold eliminar_producto, bind, DB_contains, DB_delitem, ret. rewrite H.
  rewrite bool_decide_eq_true_2; [done |]. by eexists.
Qed.

Lemma actualizar_producto_present (i : UUID) (v : ProductoOut) (kw : Datos)
    (prod : ProductoIn) (w : World) :
  DB w !! i = Some v → ProductoIn_init kw = Return prod →
  actualizar_producto i prod w =
    (Return (mkProductoOut prod i),
     mkWorld (<[i := mkProductoOut prod i]> (DB w)) (entropy w) (drawn w)).
Proof.
  intros H Hp. apply ProductoIn_init_stable in Hp.
  unfold actualizar_producto, bind, DB_contains, lift, ProductoOut_init,
    bind_outcome, DB_setitem, ret.
  rewrite H, bool_decide_eq_true_2 by by eexists. cbn [negb]. by rewrite Hp.
Qed.

End Store.

(** ** The HTTP surface *)

Section Surface.

Lemma with_body_invalid (body : Datos) (x : Exception)
    (k : ProductoIn → World → Response * World) (w : World) :
  ProductoIn_init body = Raise x →
  ∃ errs, x = ValidationError errs ∧
          with_body body k w = (mkResponse 422 (JErrors errs), w).
Proof.
  intros H. unfold with_body. rewrite H.
  destruct (ProductoIn_init_outcomes body) as (rn & rp & rc & _ & _ & _ & E).
  rewrite H in E. destruct rn, rp, rc; try discriminate E;
    injection E as ->; by eexists.
Qed.

Lemma handle_POST_valid (body : Datos) (p : ProductoIn) (w : World) :
  ProductoIn_init body = Return p →
  let u := entropy w (drawn w) in
  handle (POST_productos body) w =
    (mkResponse 201 (JProducto (mkProductoOut p u)),
     mkWorld (<[u := mkProductoOut p u]> (DB w)) (entropy w) (S (drawn w))).
Proof.
  intros H. cbn [handle]. unfold with_body, respond. rewrite H.
  by rewrite (crear_producto_validated _ _ _ H).
Qed.

Lemma handle_PUT_valid (i : UUID) (body : Datos) (p : ProductoIn) (w : World) :
  ProductoIn_init body = Return p →
  handle (PUT_producto i body) w =
    match DB w !! i with
    | Some _ =>
        (mkResponse 200 (JProducto (mkProductoOut p i)),
         mkWorld (<[i := mkProductoOut p i]> (DB w)) (entropy w) (drawn w))
    | None => (mkResponse 404 (JDetail "Producto no encontrado"), w)
    end.
Proof.
  intros H. cbn [handle]. unfold with_body, respond. rewrite H.
  destruct (DB w !! i) as [v |] eqn:E.
  - by rewrite (actualizar_producto_present _ _ _ _ _ E H).
  - by rewrite (actualizar_producto_absent _ _ _ E).
Qed.

Lemma handle_DELETE (i : UUID) (w : World) :
  handle (DELETE_producto i) w =
    match DB w !! i with
    | Some _ => (mkResponse 204 JEmpty, mkWorld (delete i (DB w)) (entropy w) (drawn w))
    | None => (mkResponse 404 (JDetail "Producto no encontrado"), w)
    end.
Proof.
  cbn [handle]. unfold respond. destruct (DB w !! i) as [v |] eqn:E.
  - by rewrite (eliminar_producto_present _ _ _ E).
  - by rewrite (eliminar_producto_absent _ _ E).
Qed.

Lemma handle_GET (i : UUID) (w : World) :
  handle (GET_producto i) w =
    match DB w !! i with
    | Some v => (mkResponse 200 (JProducto v), w)
    | None => (mkResponse 404 (JDetail "Producto no encontrado"), w)
    end.
Proof.
  cbn [handle]. unfold respond. destruct (DB w !! i) as [v |] eqn:E.
  - by rewrite (obtener_producto_present _ _ _ E).
  - by rewrite (obtener_producto_absent _ _ E).
Qed.

(** One request: the entropy is never replaced, products stay under
    their own id, and a creation hands out the next draw. *)
Lemma handle_step (r : Request) (w : World) :
  let '(resp, w') := handle r w in
  entropy w' = entropy w ∧ (keyed w → keyed w') ∧
  match created_id resp with
  | Some u => u = entropy w (drawn w) ∧ drawn w' = S (drawn w)
  | None => drawn w' = drawn w
  end.
Proof.
  destruct r as [body | | i | i body | i].
  - destruct (ProductoIn_init body) as [p | x] eqn:E.
    + rewrite (handle_POST_valid _ _ _ E). cbn. split_and!; try done.
      intros K k v. cbn. destruct (decide (entropy w (drawn w) = k)) as [<- | Hne].
      * rewrite lookup_insert_eq. by intros [= <-].
      * rewrite lookup_insert_ne by done. apply K.
    + cbn [handle]. destruct (with_body_invalid _ _
        (fun prod => respond 201 JProducto (crear_producto prod)) w E) as (errs & _ & ->).
      by cbn.
  - by cbn.
  - rewrite handle_GET. destruct (DB w !! i); by cbn.
  - destruct (ProductoIn_init body) as [p | x] eqn:E.
    + rewrite (handle_PUT_valid _ _ _ _ E). destruct (DB w !! i) eqn:L; cbn; [| done].
      split_and!; try done.
      intros K k v. cbn. destruct (decide (i = k)) as [<- | Hne].
      * rewrite lookup_insert_eq. by intros [= <-].
      * rewrite lookup_insert_ne by done. apply K.
    + cbn [handle]. destruct (with_body_invalid _ _
        (fun prod => respond 200 JProducto (actualizar_producto i prod)) w E)
        as (errs & _ & ->).
      by cbn.
  - rewrite handle_DELETE. destruct (DB w !! i) eqn:L; cbn; [| done].
    split_and!; try done.
    intros K k v. cbn. destruct (decide (i = k)) as [<- | Hne].
    * by rewrite lookup_delete_eq.
    * rewrite lookup_delete_ne by done. apply K.
Qed.

(** A run: the ids handed out are draws of the entropy, in order. *)
Lemma serve_run (rs : list Request) (w : World) :
  let '(resps, w') := serve rs w in
  entropy w' = entropy w ∧ (keyed w → keyed w') ∧ drawn w ≤ drawn w' ∧
  created_ids resps `sublist_of` (entropy w <$> seq (drawn w) (drawn w' - drawn w)).
Proof.
  revert w. induction rs as [| r rs IH]; intros w; cbn [serve].
  - split_and!; try done. rewrite Nat.sub_diag. constructor.
  - pose proof (handle_step r w) as Hs. destruct (handle r w) as [resp w1].
    specialize (IH w1). destruct (serve rs w1) as [resps w2].
    destruct Hs as (He1 & Hk1 & Hc). destruct IH as (He2 & Hk2 & Hle & Hsub).
    rewrite He1 in Hsub, He2.
    unfold created_ids in *. cbn [omap list_omap].
    destruct (created_id resp) as [u |]; cbn.
    + destruct Hc as [-> Hd]. split_and!; [done | tauto | lia |].
      replace (drawn w2 - drawn w) with (S (drawn w2 - drawn w1)) by lia.
      cbn [seq fmap list_fmap]. rewrite <- Hd. by constructor.
    + rewrite Hc in *. split_and!; [done | tauto | lia | done].
Qed.

End Surface.

(** ** Normal forms *)

Section NormalForms.
Import PyStr.

Lemma lower_char_spec (a : ascii) :
  lower_char_of a (lower_char a) ∧ is_upper (lower_char a) = false.
Proof.
  destruct a as [[] [] [] [] [] [] [] []]; split; vm_compute; reflexivity.
Qed.

Lemma lower_lowercase_of (s : string) :
  lowercase_of s (lower s) ∧ has_upper (lower s) = false.
Proof.
  induction s as [| a s [IH1 IH2]]; cbn [lower has_upper].
  - split; [constructor | done].
  - destruct (lower_char_spec a) as [Ha Hu]. split; [by constructor |].
    by rewrite Hu, IH2.
Qed.

Lemma lstrip_spec (s : string) :
  ∃ l, s = String.append l (lstrip s) ∧ all_space l = true ∧
       starts_with_space (lstrip s) = false.
Proof.
  induction s as [| a s (l & Hs & Hl & Ht)]; cbn [lstrip].
  - by exists "".
  - destruct (isspace a) eqn:E.
    + exists (String a l). split_and!; [| cbn; by rewrite E, Hl | done].
      change (String a s = String a (String.append l (lstrip s))). by f_equal.
    + exists "". cbn. by rewrite E.
Qed.

Lemma rstrip_spec (s : string) :
  ∃ r, s = String.append (rstrip s) r ∧ all_space r = true ∧
       ends_with_space (rstrip s) = false ∧
       (starts_with_space s = false → starts_with_space (rstrip s) = false).
Proof.
  induction s as [| a s (r & Hs & Hr & He & _)]; cbn [rstrip].
  - by exists "".
  - destruct (rstrip s) as [| b t] eqn:Et.
    + destruct (isspace a) eqn:E.
      * exists (String a s). change (s = r) in Hs. subst r. cbn. by rewrite E, Hr.
      * exists s. change (s = r) in Hs. subst r. cbn. by rewrite E, Hr.
    + exists r. split_and!; [| done | exact He | done].
      change (String a s = String a (String.append (String b t) r)). by f_equal.
Qed.

Lemma strip_trimmed (c : string) : trimmed_of c (strip c).
Proof.
  unfold strip. destruct (lstrip_spec c) as (l & Hc & Hl & Hs).
  destruct (rstrip_spec (lstrip c)) as (r & Ht & Hr & He & Hk).
  exists l, r. split_and!; try done; [| by apply Hk].
  by rewrite <- Ht.
Qed.

Lemma normal_form_lower_strip (c : string) : normal_form_of c (lower (strip c)).
Proof.
  exists (strip c). destruct (lower_lowercase_of (strip c)) as [H1 H2].
  split_and!; [apply strip_trimmed | done | done].
Qed.

End NormalForms.

(** * The properties of the specification *)

Section Claims.
Import ProductoIn_class.

(** C1 (rounding law). The validator [normalizar_precio] rounds half up
    on its own: 10.005 gives 10.01 and 10.004 gives 10.00.  It never gets
    such a value: the constraint [decimal_places=2] of the field is
    checked first and refuses both prices (and the 5.999 of the end-to-end
    scenario), so building the model raises a [ValidationError] whose only
    line is [decimal_max_places] on [precio]. *)
Theorem precio_rounding_unreachable :
  normalizar_precio d_10_005 = Return d_10_01 ∧
  normalizar_precio d_10_004 = Return d_10_00 ∧
  campo_precio d_10_005 = Return (inl decimal_max_places) ∧
  campo_precio d_10_004 = Return (inl decimal_max_places) ∧
  campo_precio d_5_999 = Return (inl decimal_max_places) ∧
  ProductoIn_init (mkDatos "Miel de abeja" d_10_005 ["granos"]) =
    Raise (ValidationError [("precio", decimal_max_places)]).
Proof. by vm_compute. Qed.

(** An accepted price is never rounded: what is stored denotes the number
    that was sent, written with two decimal places. *)
Lemma precio_accepted_exact (kw : Datos) (p : ProductoIn) :
  ProductoIn_init kw = Return p →
  PyDecimal.same_value (d_precio kw) (precio p) ∧ dexp (precio p) = (-2)%Z.
Proof.
  rewrite ProductoIn_init_Return. intros (_ & Hp & _).
  apply campo_precio_accepted in Hp as [(_ & He & _) Hv]. by split.
Qed.

(** C2 (name bounds). The name is neither trimmed nor measured trimmed:
    the bounds bear on the text as received and the text is stored as
    received.  A five-character text whose trimmed form has two
    characters is accepted and stored with its spaces, and a text of 61
    characters whose trimmed form has three is refused. *)
Theorem nombre_not_trimmed :
  PyStr.strip "  ab " = "ab" ∧
  campo_nombre "  ab " = Return (inr "  ab ") ∧
  ProductoIn_init (mkDatos "  ab " d_10_00 ["granos"]) =
    Return (mkProductoIn "  ab " d_10_00 ["granos"]) ∧
  PyStr.strip nombre_61 = "abc" ∧
  campo_nombre nombre_61 = Return (inl string_too_long).
Proof. by vm_compute. Qed.

(** The field [nombre] as the code has it. *)
Lemma nombre_as_received (v s : string) :
  campo_nombre v = Return (inr s) ↔
  s = v ∧ 3 ≤ PyStr.len v ≤ 60 ∧ PyStr.strip v ≠ "".
Proof. apply campo_nombre_spec. Qed.

(** C3 (categories: length on the raw sequence, then normalization).
    Fewer than 1 or more than 10 entries as received are refused whatever
    normalization would leave.  Normalization replaces every entry by its
    normal form, the entry trimmed of its surrounding whitespace and then
    lowercased, and drops the entries whose normal form is empty; it is
    the normalization of the specification.  Within the bounds, an input
    with no entry left is refused for having no valid category, and
    otherwise the checks go on over the normalized entries: a repetition
    or an unknown label is an error, and the list stored is the
    normalized one. *)
Theorem categorias_length_on_raw_sequence (v : list string) :
  (length v < 1 → campo_categorias v = Return (inl too_short)) ∧
  (10 < length v → campo_categorias v = Return (inl too_long)) ∧
  normalizar v = normalizar_palabras v ∧
  (1 ≤ length v ≤ 10 → normalizar_palabras v = [] →
     campo_categorias v =
       Return (inl (value_error Debe_incluir_al_menos_una_categoria_valida))) ∧
  (∃ ns, Forall2 normal_form_of v ns ∧ normalizar v = filter (fun n => n ≠ "") ns) ∧
  (1 ≤ length v ≤ 10 →
     campo_categorias v =
       if decide (normalizar v = []) then
         Return (inl (value_error Debe_incluir_al_menos_una_categoria_valida))
       else if decide (NoDup (normalizar v)) then
         if decide (desconocidas (normalizar v) = []) then Return (inr (normalizar v))
         else Return (inl (value_error
                             (Categorias_no_permitidas (desconocidas (normalizar v)))))
       else Return (inl (value_error Las_categorias_no_deben_repetirse))).
Proof.
  unfold campo_categorias, validate_field. rewrite list_validator_categorias.
  split_and!.
  - intros H. by destruct (Nat.ltb_spec (length v) 1); [| lia].
  - intros H. destruct (Nat.ltb_spec (length v) 1); [lia |].
    by destruct (Nat.ltb_spec 10 (length v)); [| lia].
  - apply normalizar_refines.
  - intros H E. rewrite <- normalizar_refines in E.
    destruct (Nat.ltb_spec (length v) 1); [lia |].
    destruct (Nat.ltb_spec 10 (length v)); [lia |].
    rewrite validar_categorias_cases. by rewrite decide_True.
  - exists ((fun c => PyStr.lower (PyStr.strip c)) <$> v).
    split; [| apply normalizar_refines].
    induction v as [| c v IH]; [constructor |].
    rewrite fmap_cons. constructor; [apply normal_form_lower_strip | exact IH].
  - intros H.
    destruct (Nat.ltb_spec (length v) 1); [lia |].
    destruct (Nat.ltb_spec 10 (length v)); [lia |].
    rewrite validar_categorias_cases. by repeat case_decide.
Qed.

Lemma categorias_blank_entries :
  list_validator categorias_info ["  "; ""] = inr ["  "; ""] ∧
  campo_categorias ["  "; ""] =
    Return (inl (value_error Debe_incluir_al_menos_una_categoria_valida)) ∧
  campo_categorias ["  Granos "; " "; "FRUTAS"] = Return (inr ["granos"; "frutas"]).
Proof.
  split; [reflexivity |].
  destruct (categorias_length_on_raw_sequence ["  "; ""]) as (_ & _ & _ & H & _).
  split; [apply H; [simpl; lia | reflexivity] |].
  destruct (categorias_length_on_raw_sequence ["  Granos "; " "; "FRUTAS"])
    as (_ & _ & _ & _ & _ & G).
  rewrite G by (simpl; lia). reflexivity.
Defined.



(** A pair of non-blank entries with one normal form shows up twice in
    the normalized list. *)
Lemma normalizar_repeats (v : list string) (i j : nat) (ci cj : string) :
  i < j → v !! i = Some ci → v !! j = Some cj →
  PyStr.lower (PyStr.strip ci) = PyStr.lower (PyStr.strip cj) →
  PyStr.lower (PyStr.strip ci) ≠ "" →
  normalizar v ≠ [] ∧ ¬ NoDup (normalizar v).
Proof.
  intros Hij Hi Hj Heq Hne.
  assert (Gi : PyStr.truthy ci && PyStr.truthy (PyStr.strip ci)).
  { rewrite guard_normal_form. apply Is_true_true. by apply truthy_true. }
  assert (Gj : PyStr.truthy cj && PyStr.truthy (PyStr.strip cj)).
  { rewrite guard_normal_form, <- Heq. apply Is_true_true. by apply truthy_true. }
  assert (Hin : cj ∈ drop (S i) v).
  { apply list_elem_of_lookup_2 with (j - S i). rewrite lookup_drop.
    by replace (S i + (j - S i)) with j by lia. }
  unfold normalizar. rewrite <- (take_drop_middle v i ci Hi).
  rewrite filter_app, filter_cons_True by done. rewrite fmap_app, fmap_cons.
  split; [by destruct (_ <$> filter _ (take i v)) |].
  intros Hnd. apply NoDup_app in Hnd as (_ & _ & Hnd).
  apply NoDup_cons_1_1 in Hnd. apply Hnd. rewrite Heq.
  apply (list_elem_of_fmap_2 (fun c => PyStr.lower (PyStr.strip c))).
  by apply list_elem_of_filter.
Qed.

(** C5, as stated, fails: with an unknown label written twice the error
    is the one for repetitions, and names no label. *)
Lemma unknown_repeated_reports_repetition :
  (∃ c, c ∈ normalizar ["marcianos"; "Marcianos "] ∧ c ∉ CATALOGO_CATEGORIAS) ∧
  campo_categorias ["marcianos"; "Marcianos "] =
    Return (inl (value_error Las_categorias_no_deben_repetirse)) ∧
  campo_categorias ["marcianos"; "Marcianos "] ≠
    Return (inl (value_error (Categorias_no_permitidas
                                (desconocidas (normalizar ["marcianos"; "Marcianos "]))))).
Proof.
  split_and!; [| reflexivity | by vm_compute].
  exists "marcianos". split; [vm_compute; left |].
  apply (bool_decide_unpack _). by vm_compute.
Qed.

(** C5 (unknown categories), amended. When some normalized entry is not
    in the catalog, validation fails.  When moreover the input has 1 to
    10 entries and its normalized entries do not repeat, the error on
    [categorias] is the one that carries the unknown labels, and it
    carries all of them: every normalized entry outside the catalog, in
    the order of the input (the labels listed are a subsequence of the
    normal forms of the entries as received). *)
Theorem unknown_categories_all_listed (kw : Datos) :
  (∃ c, c ∈ normalizar (d_categorias kw) ∧ c ∉ CATALOGO_CATEGORIAS) →
  (∃ errs, ProductoIn_init kw = Raise (ValidationError errs)) ∧
  (∀ c, c ∈ desconocidas (normalizar (d_categorias kw)) ↔
        c ∈ normalizar (d_categorias kw) ∧ c ∉ CATALOGO_CATEGORIAS) ∧
  desconocidas (normalizar (d_categorias kw)) `sublist_of`
    ((fun c => PyStr.lower (PyStr.strip c)) <$> d_categorias kw) ∧
  (1 ≤ length (d_categorias kw) ≤ 10 → NoDup (normalizar (d_categorias kw)) →
   ∃ errs, ProductoIn_init kw = Raise (ValidationError errs) ∧
     ∀ e, ("categorias", e) ∈ errs ↔
          e = value_error (Categorias_no_permitidas
                             (desconocidas (normalizar (d_categorias kw))))).
Proof.
  intros (c & Hc & Hu).
  assert (Hd : desconocidas (normalizar (d_categorias kw)) ≠ []).
  { rewrite desconocidas_nil, Forall_forall. intros F. apply Hu.
    by apply F. }
  assert (Hn : normalizar (d_categorias kw) ≠ []).
  { intros E. rewrite E in Hc. by apply elem_of_nil in Hc. }
  split_and!.
  - destruct (campo_categorias_returns (d_categorias kw)) as [[e | n] Hr].
    + destruct (ProductoIn_init_categorias_line _ _ Hr) as (errs & -> & _). by eexists.
    + apply campo_categorias_spec in Hr as (_ & -> & _ & _ & F).
      by apply desconocidas_nil in F.
  - intros c'. unfold desconocidas. rewrite list_elem_of_filter. tauto.
  - unfold desconocidas, normalizar.
    etransitivity; [apply sublist_filter |]. apply fmap_sublist, sublist_filter.
  - intros Hlen Hnd. apply ProductoIn_init_categorias_line.
    unfold campo_categorias, validate_field. rewrite list_validator_categorias.
    destruct (Nat.ltb_spec (length (d_categorias kw)) 1); [lia |].
    destruct (Nat.ltb_spec 10 (length (d_categorias kw))); [lia |].
    rewrite validar_categorias_cases.
    by rewrite decide_False, decide_True, decide_False.
Qed.

Lemma unknown_categories_marcianos :
  (∃ errs,
     ProductoIn_init (mkDatos "Miel de abeja" d_6_00 ["granos"; "marcianos"]) =
       Raise (ValidationError errs) ∧
     ∀ e, ("categorias", e) ∈ errs ↔
          e = value_error (Categorias_no_permitidas ["marcianos"])) ∧
  (∃ errs,
     ProductoIn_init (mkDatos "Miel de abeja" d_6_00 [" Zeta"; "granos"; "ALFA "]) =
       Raise (ValidationError errs) ∧
     ∀ e, ("categorias", e) ∈ errs ↔
          e = value_error (Categorias_no_permitidas ["zeta"; "alfa"])).
Proof.
  split.
  - destruct (unknown_categories_all_listed
                (mkDatos "Miel de abeja" d_6_00 ["granos"; "marcianos"])) as (_ & _ & _ & H).
    + exists "marcianos". split; [vm_compute; right; left |].
      apply (bool_decide_unpack _). by vm_compute.
    + apply H; [simpl; lia |]. apply (bool_decide_unpack _). by vm_compute.
  - destruct (unknown_categories_all_listed
                (mkDatos "Miel de abeja" d_6_00 [" Zeta"; "granos"; "ALFA "]))
      as (_ & _ & _ & H).
    + exists "zeta". split; [vm_compute; left |].
      apply (bool_decide_unpack _). by vm_compute.
    + apply H; [simpl; lia |]. apply (bool_decide_unpack _). by vm_compute.
Defined.

(** C6, as stated, fails twice: two blank entries are equal once trimmed
    and lowercased, yet they are dropped and the input is accepted; and
    with more than 10 entries the error is the one on the length. *)
Lemma equal_entries_without_repetition_error :
  (PyStr.lower (PyStr.strip " ") = PyStr.lower (PyStr.strip "") ∧
   campo_categorias ["granos"; " "; ""] = Return (inr ["granos"])) ∧
  campo_categorias (replicate 11 "granos") = Return (inl too_long).
Proof. by vm_compute. Qed.

(** C6 (repeated categories), amended. For an input of 1 to 10 entries in
    which two entries have the same normal form, and that form is not
    empty, validation fails with the error for repetitions on
    [categorias]. *)
Theorem repeated_categories_rejected (kw : Datos) (i j : nat) (ci cj : string) :
  1 ≤ length (d_categorias kw) ≤ 10 →
  i < j → d_categorias kw !! i = Some ci → d_categorias kw !! j = Some cj →
  PyStr.lower (PyStr.strip ci) = PyStr.lower (PyStr.strip cj) →
  PyStr.lower (PyStr.strip ci) ≠ "" →
  ∃ errs, ProductoIn_init kw = Raise (ValidationError errs) ∧
    ∀ e, ("categorias", e) ∈ errs ↔ e = value_error Las_categorias_no_deben_repetirse.
Proof.
  intros Hlen Hij Hi Hj Heq Hne.
  destruct (normalizar_repeats _ _ _ _ _ Hij Hi Hj Heq Hne) as [Hn Hnd].
  apply ProductoIn_init_categorias_line.
  unfold campo_categorias, validate_field. rewrite list_validator_categorias.
  destruct (Nat.ltb_spec (length (d_categorias kw)) 1); [lia |].
  destruct (Nat.ltb_spec 10 (length (d_categorias kw))); [lia |].
  rewrite validar_categorias_cases. by rewrite decide_False, decide_False.
Qed.

Lemma repeated_categories_granos :
  ∃ errs,
    ProductoIn_init (mkDatos "Miel de abeja" d_6_00 ["granos"; "Granos "]) =
      Raise (ValidationError errs) ∧
    ∀ e, ("categorias", e) ∈ errs ↔ e = value_error Las_categorias_no_deben_repetirse.
Proof.
  apply (repeated_categories_rejected
           (mkDatos "Miel de abeja" d_6_00 ["granos"; "Granos "]) 0 1 "granos" "Granos ");
    [simpl; lia | lia | reflexivity | reflexivity | reflexivity | by vm_compute].
Defined.



(** C8, as stated, fails: nothing in the code compares a fresh id with
    the ids in use, so when [uuid4] returns the same value twice the two
    creations return the same id. *)
Lemma repeated_draw_repeats_id :
  ¬ NoDup (created_ids (serve [POST_productos miel; POST_productos miel]
                          (start (fun _ => 7%N))).1).
Proof.
  vm_compute. intros H. apply NoDup_cons_1_1 in H. apply H. left.
Qed.

(** C8 (uniqueness), amended. Along every run of the service from the
    empty store: when [uuid4] never returns the same value twice, the ids
    returned by the creations are pairwise distinct; and whatever it
    returns, every stored product sits under its own id, so no two
    entries of the store share an id. *)
Theorem ids_unique (e : nat → UUID) (rs : list Request) :
  ((∀ m n, e m = e n → m = n) → NoDup (created_ids (serve rs (start e)).1)) ∧
  (∀ k p, DB (serve rs (start e)).2 !! k = Some p → id p = k) ∧
  (∀ k1 k2 p1 p2,
     DB (serve rs (start e)).2 !! k1 = Some p1 →
     DB (serve rs (start e)).2 !! k2 = Some p2 →
     id p1 = id p2 → k1 = k2).
Proof.
  pose proof (serve_run rs (start e)) as H.
  destruct (serve rs (start e)) as [resps w']. cbn [fst snd].
  destruct H as (_ & Hk & _ & Hsub).
  assert (K : keyed w').
  { apply Hk. intros k v. cbn. by rewrite lookup_empty. }
  split_and!.
  - intros Hinj. eapply sublist_NoDup; [| exact Hsub].
    apply NoDup_fmap_2; [exact Hinj | apply NoDup_seq].
  - exact K.
  - intros k1 k2 p1 p2 H1 H2 E. apply K in H1, H2. congruence.
Qed.

Lemma ids_unique_two_creations :
  NoDup (created_ids (serve [POST_productos miel; POST_productos miel]
                        (start N.of_nat)).1) ∧
  created_ids (serve [POST_productos miel; POST_productos miel]
                 (start N.of_nat)).1 = [0%N; 1%N].
Proof.
  split; [| reflexivity].
  destruct (ids_unique N.of_nat [POST_productos miel; POST_productos miel]) as [H _].
  apply H. intros m n E. lia.
Defined.

(** C9 (not-found lifecycle). For an id absent from the store, fetching,
    replacing and deleting all fail with the 404 exception and leave the
    state as it is.  For an id present in the store, deleting succeeds and
    removes the entry, after which the three operations fail in the same
    way. *)
Theorem not_found_lifecycle (x : UUID) (w : World) :
  (DB w !! x = None →
     obtener_producto x w = (Raise no_encontrado, w) ∧
     (∀ prod, actualizar_producto x prod w = (Raise no_encontrado, w)) ∧
     eliminar_producto x w = (Raise no_encontrado, w)) ∧
  (∀ v, DB w !! x = Some v →
     ∃ w', eliminar_producto x w = (Return tt, w') ∧
           DB w' = delete x (DB w) ∧ DB w' !! x = None ∧
           obtener_producto x w' = (Raise no_encontrado, w') ∧
           (∀ prod, actualizar_producto x prod w' = (Raise no_encontrado, w')) ∧
           eliminar_producto x w' = (Raise no_encontrado, w')).
Proof.
  split.
  - intros H. split_and!.
    + by apply obtener_producto_absent.
    + intros prod. by apply actualizar_producto_absent.
    + by apply eliminar_producto_absent.
  - intros v H. eexists. rewrite (eliminar_producto_present _ _ _ H).
    assert (G : delete x (DB w) !! x = None) by apply lookup_delete_eq.
    split_and!; try done.
    + by apply obtener_producto_absent.
    + intros prod. by apply actualizar_producto_absent.
    + by apply eliminar_producto_absent.
Qed.

Lemma not_found_lifecycle_empty :
  obtener_producto 7%N (start N.of_nat) = (Raise no_encontrado, start N.of_nat) ∧
  eliminar_producto 7%N (start N.of_nat) = (Raise no_encontrado, start N.of_nat).
Proof.
  destruct (not_found_lifecycle 7%N (start N.of_nat)) as [H _].
  destruct (H eq_refl) as (Hg & _ & Hd). exact (conj Hg Hd).
Defined.

(** C10 (validation before mutation). When the body of a creation or of
    an update fails validation, the answer is a 422 with the lines of the
    [ValidationError] and the state is exactly the one before: the store
    has no entry created, replaced or removed. *)
Theorem invalid_body_leaves_store (body : Datos) (x : Exception) (i : UUID) (w : World) :
  ProductoIn_init body = Raise x →
  ∃ errs, x = ValidationError errs ∧
    handle (POST_productos body) w = (mkResponse 422 (JErrors errs), w) ∧
    handle (PUT_producto i body) w = (mkResponse 422 (JErrors errs), w).
Proof.
  intros H. cbn [handle].
  destruct (with_body_invalid _ _
    (fun prod => respond 201 JProducto (crear_producto prod)) w H) as (errs & -> & ->).
  destruct (with_body_invalid _ _
    (fun prod => respond 200 JProducto (actualizar_producto i prod)) w H)
    as (errs' & [= <-] & ->).
  by exists errs.
Qed.

Lemma invalid_body_leaves_store_10_005 :
  ∃ errs,
    ValidationError [("precio", decimal_max_places)] = ValidationError errs ∧
    handle (POST_productos (mkDatos "Miel de abeja" d_10_005 ["granos"])) (start N.of_nat) =
      (mkResponse 422 (JErrors errs), start N.of_nat) ∧
    handle (PUT_producto 7%N (mkDatos "Miel de abeja" d_10_005 ["granos"])) (start N.of_nat) =
      (mkResponse 422 (JErrors errs), start N.of_nat).
Proof.
  apply invalid_body_leaves_store. reflexivity.
Defined.

End Claims.

(** * Further properties of the service *)

Section Extras.
Import ProductoIn_class.

Lemma str_le_total : Total str_le.
Proof. intros a b. apply String.leb_total. Qed.

Lemma sorted_catalog_facts :
  Sorted str_le (sorted (elements CATALOGO_CATEGORIAS)) ∧
  NoDup (sorted (elements CATALOGO_CATEGORIAS)) ∧
  length (sorted (elements CATALOGO_CATEGORIAS)) = 10 ∧
  ∀ c, c ∈ sorted (elements CATALOGO_CATEGORIAS) ↔ c ∈ CATALOGO_CATEGORIAS.
Proof.
  unfold sorted.
  pose proof (merge_sort_Permutation str_le (elements CATALOGO_CATEGORIAS)) as P.
  split_and!.
  - apply Sorted_merge_sort, str_le_total.
  - rewrite P. apply NoDup_elements.
  - rewrite P. reflexivity.
  - intros c. rewrite P. apply elem_of_elements.
Qed.

(** X1. The catalog endpoint returns the labels of the catalog, each one
    once, in ascending order, and leaves the state as it is. *)
Theorem categorias_permitidas_sorted_catalog (w : World) :
  ∃ l, categorias_permitidas w = (Return l, w) ∧
       Sorted str_le l ∧ NoDup l ∧ length l = 10 ∧
       ∀ c, c ∈ l ↔ c ∈ CATALOGO_CATEGORIAS.
Proof.
  exists (sorted (elements CATALOGO_CATEGORIAS)).
  split; [reflexivity | apply sorted_catalog_facts].
Qed.

(** X2. The listing returns the stored products and nothing else: a
    product is listed exactly when it sits under some key, there are as
    many as keys, none twice when every product sits under its own id, and
    the state is left as it is.  The order of the listing is not stated. *)
Theorem listar_productos_exact (w : World) :
  ∃ l, listar_productos w = (Return l, w) ∧
       (∀ p, p ∈ l ↔ ∃ k, DB w !! k = Some p) ∧
       length l = size (DB w) ∧
       (keyed w → NoDup l).
Proof.
  exists ((map_to_list (DB w)).*2). split_and!.
  - reflexivity.
  - intros p. rewrite list_elem_of_fmap. split.
    + intros ([k v] & -> & Hin). exists k. by apply elem_of_map_to_list.
    + intros (k & Hk). exists (k, p). split; [done |]. by apply elem_of_map_to_list.
  - rewrite length_fmap. by rewrite length_map_to_list.
  - intros K. apply NoDup_fmap_2_strong; [| apply NoDup_map_to_list].
    intros [k1 v1] [k2 v2] H1 H2. cbn. intros <-.
    apply elem_of_map_to_list in H1, H2. apply K in H1, H2. congruence.
Qed.



(** X4. For keyword arguments of the declared types (a text, a finite
    decimal, a list of texts), building the model never lets an exception
    other than a [ValidationError] through: it returns the model, or
    raises a [ValidationError] with at least one line, each on one of the
    three fields and at most one per field.  Values of another type, which
    pydantic reports item by item, are outside this statement. *)
Theorem validation_outcomes (kw : Datos) :
  (∃ p, ProductoIn_init kw = Return p) ∨
  (∃ errs, ProductoIn_init kw = Raise (ValidationError errs) ∧
           errs ≠ [] ∧ NoDup errs.*1 ∧
           ∀ loc, loc ∈ errs.*1 → loc ∈ ["nombre"; "precio"; "categorias"]).
Proof.
  destruct (ProductoIn_init_outcomes kw) as (rn & rp & rc & _ & _ & _ & ->).
  destruct rn as [en | n], rp as [ep | p], rc as [ec | c];
    first [ left; by eexists
          | right; eexists; split; [reflexivity |]; cbn;
            split_and!;
            [ done
            | apply (bool_decide_unpack _); by vm_compute
            | intros loc; rewrite !elem_of_cons, elem_of_nil; tauto ] ].
Qed.

(** One request in full: what it answers and the state it leaves. *)
Lemma handle_cases (r : Request) (w : World) :
  match r with
  | POST_productos body =>
      (∃ p, ProductoIn_init body = Return p ∧
            handle r w =
              (mkResponse 201 (JProducto (mkProductoOut p (entropy w (drawn w)))),
               mkWorld (<[entropy w (drawn w) := mkProductoOut p (entropy w (drawn w))]> (DB w))
                 (entropy w) (S (drawn w)))) ∨
      (∃ errs, ProductoIn_init body = Raise (ValidationError errs) ∧
               handle r w = (mkResponse 422 (JErrors errs), w))
  | PUT_producto i body =>
      (∃ p, ProductoIn_init body = Return p ∧
            handle r w =
              match DB w !! i with
              | Some _ =>
                  (mkResponse 200 (JProducto (mkProductoOut p i)),
                   mkWorld (<[i := mkProductoOut p i]> (DB w)) (entropy w) (drawn w))
              | None => (mkResponse 404 (JDetail "Producto no encontrado"), w)
              end) ∨
      (∃ errs, ProductoIn_init body = Raise (ValidationError errs) ∧
               handle r w = (mkResponse 422 (JErrors errs), w))
  | GET_productos => handle r w = (mkResponse 200 (JLista (map_to_list (DB w)).*2), w)
  | GET_producto i =>
      handle r w =
        match DB w !! i with
        | Some v => (mkResponse 200 (JProducto v), w)
        | None => (mkResponse 404 (JDetail "Producto no encontrado"), w)
        end
  | DELETE_producto i =>
      handle r w =
        match DB w !! i with
        | Some _ => (mkResponse 204 JEmpty, mkWorld (delete i (DB w)) (entropy w) (drawn w))
        | None => (mkResponse 404 (JDetail "Producto no encontrado"), w)
        end
  end.
Proof.
  destruct r as [body | | i | i body | i].
  - destruct (ProductoIn_init body) as [p | x] eqn:E.
    + left. exists p. split; [done |]. by apply handle_POST_valid.
    + right. cbn [handle]. destruct (with_body_invalid _ _
        (fun prod => respond 201 JProducto (crear_producto prod)) w E) as (errs & -> & ->).
      by exists errs.
  - reflexivity.
  - apply handle_GET.
  - destruct (ProductoIn_init body) as [p | x] eqn:E.
    + left. exists p. split; [done |]. by apply handle_PUT_valid.
    + right. cbn [handle]. destruct (with_body_invalid _ _
        (fun prod => respond 200 JProducto (actualizar_producto i prod)) w E)
        as (errs & -> & ->).
      by exists errs.
  - apply handle_DELETE.
Qed.


(** X6. A request writes at most one key of the store, its target: every
    other key keeps its product, or stays absent. *)
Theorem request_frame (r : Request) (w : World) (k : UUID) :
  target r w ≠ Some k → DB (handle r w).2 !! k = DB w !! k.
Proof.
  intros Hk. pose proof (handle_cases r w) as H.
  destruct r as [body | | i | i body | i]; cbn [target] in Hk.
  - destruct H as [(p & _ & ->) | (errs & _ & ->)]; cbn; [| done].
    apply lookup_insert_ne. congruence.
  - by rewrite H.
  - rewrite H. by destruct (DB w !! i).
  - destruct H as [(p & _ & ->) | (errs & _ & ->)]; [| done].
    destruct (DB w !! i); cbn; [| done]. apply lookup_insert_ne. congruence.
  - rewrite H. destruct (DB w !! i); cbn; [| done]. apply lookup_delete_ne. congruence.
Qed.

Lemma request_frame_delete :
  DB (handle (DELETE_producto 0%N)
        (handle (POST_productos miel) (handle (POST_productos miel) (start N.of_nat)).2).2).2
    !! 1%N =
  DB (handle (POST_productos miel) (handle (POST_productos miel) (start N.of_nat)).2).2
    !! 1%N.
Proof. apply request_frame. cbn. discriminate. Defined.

(** What holds of a product that passes validation unchanged. *)
Lemma producto_valido_facts (p : ProductoIn) :
  producto_valido p →
  3 ≤ PyStr.len (nombre p) ≤ 60 ∧ PyStr.strip (nombre p) ≠ "" ∧
  precio_ok (precio p) ∧
  1 ≤ length (categorias p) ≤ 10 ∧ NoDup (categorias p) ∧
  Forall (fun c => c ∈ CATALOGO_CATEGORIAS) (categorias p).
Proof.
  unfold producto_valido. rewrite ProductoIn_init_Return. cbn. intros (Hn & Hp & Hc).
  apply campo_nombre_spec in Hn as (_ & Hn & Hs).
  apply campo_precio_accepted in Hp as [Hp _].
  apply campo_categorias_spec in Hc as (Hl & _ & _ & Hd & Hc).
  done.
Qed.

Lemma handle_store_valid (r : Request) (w : World) :
  store_valid w → store_valid (handle r w).2.
Proof.
  intros V. pose proof (handle_cases r w) as H.
  destruct r as [body | | i | i body | i].
  - destruct H as [(p & Hp & ->) | (errs & _ & ->)]; [| done].
    intros k v. cbn. destruct (decide (entropy w (drawn w) = k)) as [<- | Hne].
    + rewrite lookup_insert_eq. intros [= <-]. cbn. by eapply ProductoIn_init_stable.
    + rewrite lookup_insert_ne by done. apply V.
  - by rewrite H.
  - rewrite H. by destruct (DB w !! i).
  - destruct H as [(p & Hp & ->) | (errs & _ & ->)]; [| done].
    destruct (DB w !! i); [| done].
    intros k v. cbn. destruct (decide (i = k)) as [<- | Hne].
    + rewrite lookup_insert_eq. intros [= <-]. cbn. by eapply ProductoIn_init_stable.
    + rewrite lookup_insert_ne by done. apply V.
  - rewrite H. destruct (DB w !! i); [| done].
    intros k v. cbn. destruct (decide (i = k)) as [<- | Hne].
    + by rewrite lookup_delete_eq.
    + rewrite lookup_delete_ne by done. apply V.
Qed.

Lemma serve_store_valid (rs : list Request) (w : World) :
  store_valid w → store_valid (serve rs w).2.
Proof.
  revert w. induction rs as [| r rs IH]; intros w V; cbn [serve]; [done |].
  pose proof (handle_store_valid r w V) as V1. destruct (handle r w) as [resp w1].
  specialize (IH w1 V1). by destruct (serve rs w1) as [resps w2].
Qed.

(** X7. Whatever requests were served since the empty store, every stored
    product is a valid one: its fields pass validation unchanged, so its
    name has 3 to 60 characters and is not blank, its price is positive,
    below 10^8 and written with two decimal places, and its categories are
    1 to 10 distinct labels of the catalog. *)
Theorem stored_products_valid (e : nat → UUID) (rs : list Request) (k : UUID)
    (v : ProductoOut) :
  DB (serve rs (start e)).2 !! k = Some v →
  ProductoIn_init (model_dump (super v)) = Return (super v) ∧
  3 ≤ PyStr.len (nombre (super v)) ≤ 60 ∧ PyStr.strip (nombre (super v)) ≠ "" ∧
  precio_ok (precio (super v)) ∧
  1 ≤ length (categorias (super v)) ≤ 10 ∧ NoDup (categorias (super v)) ∧
  Forall (fun c => c ∈ CATALOGO_CATEGORIAS) (categorias (super v)).
Proof.
  intros H.
  assert (V : store_valid (serve rs (start e)).2).
  { apply serve_store_valid. intros k' v'. cbn. by rewrite lookup_empty. }
  specialize (V _ _ H). split; [exact V |]. by apply producto_valido_facts.
Qed.

Lemma stored_products_valid_miel :
  precio_ok d_6_00 ∧ NoDup ["organicos"; "ofertas"].
Proof.
  destruct (stored_products_valid N.of_nat [POST_productos miel] 0%N
              (mkProductoOut (mkProductoIn "Miel de abeja" d_6_00 ["organicos"; "ofertas"])
                 0%N)) as (_ & _ & _ & Hp & _ & Hd & _).
  - reflexivity.
  - exact (conj Hp Hd).
Defined.







End Extras.

Section PrecioExtras.
Import PyDecimal ProductoIn_class.

Lemma campo_precio_validator (d q : Decimal) :
  campo_precio d = Return (inr q) → decimal_validator precio_info d = inr d.
Proof.
  unfold campo_precio, validate_field.
  destruct (decimal_validator precio_info d) as [e | d'] eqn:Hv; [easy |].
  intros _. by apply accepted_facts in Hv as (-> & _).
Qed.






End PrecioExtras.

Section MoreExtras.
Import PyDecimal ProductoIn_class.

(** X13. A price that is zero or negative is always refused. *)
Theorem precio_not_positive_rejected (d : Decimal) :
  dsign d = true ∨ coef d = 0%N → ∃ e, campo_precio d = Return (inl e).
Proof.
  intros H. destruct (campo_precio_returns d) as [[e | q] Hr]; [by exists e |].
  apply campo_precio_validator, accepted_facts in Hr as (_ & Hs & Hc & _).
  destruct H; congruence.
Qed.

Lemma precio_not_positive_rejected_zero :
  ∃ e, campo_precio (mkDecimal false 0 (-2)) = Return (inl e).
Proof. apply precio_not_positive_rejected. by right. Defined.



(** X15. A price of 10^8 or more is always refused. *)
Theorem precio_too_large_rejected (d : Decimal) :
  (10 ^ 8 * 10 ^ Z.to_N (- dexp d) ≤ coef d * 10 ^ Z.to_N (dexp d))%N →
  ∃ e, campo_precio d = Return (inl e).
Proof.
  intros H. destruct (campo_precio_returns d) as [[e | q] Hr]; [by exists e |].
  exfalso. apply campo_precio_validator, accepted_facts in Hr as (_ & _ & _ & Hw & _).
  destruct (ndigits_bounds (coef d)) as (Hn1 & Hn2 & _).
  assert (Hlt : (coef d < 10 ^ Z.to_N (8 - dexp d))%N).
  { eapply N.lt_le_trans; [exact Hn2 |]. apply N.pow_le_mono_r; lia. }
  destruct (Z.le_gt_cases 0 (dexp d)) as [Hge | Hneg].
  - replace (Z.to_N (- dexp d)) with 0%N in H by lia. rewrite N.pow_0_r, N.mul_1_r in H.
    assert (E : (10 ^ 8 = 10 ^ Z.to_N (8 - dexp d) * 10 ^ Z.to_N (dexp d))%N).
    { rewrite <- N.pow_add_r. f_equal. lia. }
    rewrite E in H. pose proof (pow10_pos (Z.to_N (dexp d))).
    revert H Hlt H0. generalize (10 ^ Z.to_N (8 - dexp d))%N (10 ^ Z.to_N (dexp d))%N. nia.
  - replace (Z.to_N (dexp d)) with 0%N in H by lia. rewrite N.pow_0_r, N.mul_1_r in H.
    rewrite <- N.pow_add_r in H.
    replace (8 + Z.to_N (- dexp d))%N with (Z.to_N (8 - dexp d)) in H by lia. lia.
Qed.

Lemma precio_too_large_rejected_1e8 :
  ∃ e, campo_precio (mkDecimal false 1 8) = Return (inl e).
Proof. apply precio_too_large_rejected. by vm_compute. Defined.

(** X16. The validator [normalizar_precio] on its own: whenever it
    returns, the result has the sign of its argument and two decimal
    places; an argument with at most two decimal places is only padded
    with zeros; otherwise the result is the nearest multiple of 0.01, and
    at a tie the one of larger magnitude. *)
Theorem normalizar_precio_half_up (d q : Decimal) :
  normalizar_precio d = Return q →
  dsign q = dsign d ∧ dexp q = (-2)%Z ∧
  ((-2 ≤ dexp d)%Z → coef q = (coef d * 10 ^ Z.to_N (dexp d + 2))%N) ∧
  ((dexp d < -2)%Z →
   (2 * coef d < 2 * (coef q * 10 ^ Z.to_N (-2 - dexp d)) + 10 ^ Z.to_N (-2 - dexp d))%N ∧
   (2 * (coef q * 10 ^ Z.to_N (-2 - dexp d)) ≤ 2 * coef d + 10 ^ Z.to_N (-2 - dexp d))%N).
Proof.
  unfold normalizar_precio. change (dexp Decimal_0_01) with (-2)%Z.
  destruct (quantize_half_up d (-2)) as [q' |] eqn:Hq; [| easy]. intros [= <-].
  unfold quantize_half_up in Hq.
  pose proof (pow10_pos (Z.to_N (-2 - dexp d))) as Hp.
  destruct (N.eqb_spec (coef d) 0) as [Hz | Hnz].
  - injection Hq as <-. cbn. rewrite Hz. split_and!; try done; lia.
  - assert (Hq' : q' = mkDecimal (dsign d) (rescale_half_up d (-2)) (-2)).
    { repeat (destruct (_ <? _)%Z in Hq; [discriminate Hq |]).
      destruct (_ <? _)%N in Hq; [discriminate Hq |]. by injection Hq as <-. }
    subst q'. cbn [dsign coef dexp]. unfold rescale_half_up.
    split_and!; try done.
    + intros Hge. destruct (Z.leb_spec (-2) (dexp d)); [| lia].
      by replace (dexp d - -2)%Z with (dexp d + 2)%Z by lia.
    + intros Hlt. destruct (Z.leb_spec (-2) (dexp d)); [lia |].
      clear Hq.
      pose proof (N.Div0.div_mod (coef d) (10 ^ Z.to_N (-2 - dexp d))) as Hdm.
      pose proof (N.mod_lt (coef d) (10 ^ Z.to_N (-2 - dexp d)) ltac:(lia)) as Hm.
      set (p := (10 ^ Z.to_N (-2 - dexp d))%N) in *.
      set (a := (coef d / p)%N) in *. set (r := (coef d mod p)%N) in *.
      set (c := coef d) in *. clearbody a r p c. subst c.
      destruct (N.leb_spec p (2 * r)); rewrite ?N.mul_add_distr_r; split; lia.
Qed.

Lemma normalizar_precio_half_up_10_005 :
  (2 * coef d_10_005 < 2 * (coef d_10_01 * 10) + 10)%N ∧
  (2 * (coef d_10_01 * 10) ≤ 2 * coef d_10_005 + 10)%N.
Proof.
  destruct (normalizar_precio_half_up d_10_005 d_10_01 eq_refl) as (_ & _ & _ & H).
  exact (H ltac:(cbn; lia)).
Defined.

(** X17. The field [categorias], in full: an input is accepted and stored
    as [n] exactly when it has 1 to 10 entries, [n] is the list of the
    normal forms of its non-blank entries in their order, and [n] is not
    empty, has no repetition and holds only labels of the catalog. *)
Theorem categorias_accepted_iff (v n : list string) :
  campo_categorias v = Return (inr n) ↔
  1 ≤ length v ≤ 10 ∧ n = normalizar v ∧ n ≠ [] ∧ NoDup n ∧
  Forall (fun c => c ∈ CATALOGO_CATEGORIAS) n.
Proof. apply campo_categorias_spec. Qed.

(** X18. The outcome of the field [categorias] depends on the entries
    only through their normal forms: two inputs whose entries are equal
    one by one up to case and surrounding whitespace get the same result,
    the same accepted list or the same error. *)
Theorem categorias_case_insensitive (v v' : list string) :
  (fun c => PyStr.lower (PyStr.strip c)) <$> v =
  (fun c => PyStr.lower (PyStr.strip c)) <$> v' →
  campo_categorias v = campo_categorias v'.
Proof.
  intros H.
  assert (Hl : length v = length v').
  { by rewrite <- (length_fmap (fun c => PyStr.lower (PyStr.strip c)) v), H, length_fmap. }
  assert (Hn : normalizar v = normalizar v').
  { rewrite !normalizar_refines. unfold normalizar_palabras. by rewrite H. }
  unfold campo_categorias, validate_field. rewrite !list_validator_categorias, Hl.
  destruct (Nat.ltb_spec (length v') 1); [done |].
  destruct (Nat.ltb_spec 10 (length v')); [done |].
  by rewrite !validar_categorias_cases, Hn.
Qed.

Lemma categorias_case_insensitive_granos :
  campo_categorias [" GRANOS"; "Frutas "] = campo_categorias ["granos"; "frutas"].
Proof. apply categorias_case_insensitive. reflexivity. Defined.

(** X19. Labels of the catalog are accepted as they are: a list of 1 to
    10 distinct labels of the catalog is a valid input and is stored
    unchanged.  The list that the catalog endpoint returns is one. *)
Theorem catalog_labels_accepted (n : list string) :
  1 ≤ length n ≤ 10 → NoDup n → Forall (fun c => c ∈ CATALOGO_CATEGORIAS) n →
  campo_categorias n = Return (inr n).
Proof.
  intros [Hl1 Hl2] Hd Hc. apply campo_categorias_spec.
  rewrite (normalizar_canonical n Hc). split_and!; try done.
  destruct n; [cbn in Hl1; lia | done].
Qed.

Lemma catalog_labels_accepted_listing :
  campo_categorias (sorted (elements CATALOGO_CATEGORIAS)) =
  Return (inr (sorted (elements CATALOGO_CATEGORIAS))).
Proof.
  destruct sorted_catalog_facts as (_ & Hd & Hl & Hc).
  apply catalog_labels_accepted; [lia | done |].
  apply Forall_forall. intros c. apply Hc.
Defined.

(** X20. The field [nombre], in full: a name is accepted exactly when the
    text as received has 3 to 60 characters and is not made of whitespace
    only, and it is stored as received, with its surrounding whitespace. *)
Theorem nombre_accepted_iff (v s : string) :
  campo_nombre v = Return (inr s) ↔
  s = v ∧ 3 ≤ PyStr.len v ≤ 60 ∧ PyStr.strip v ≠ "".
Proof. apply campo_nombre_spec. Qed.

End MoreExtras.

Section Accounting.

Lemma count_status_cons (s : nat) (r : Response) (rs : list Response) :
  count_status s (r :: rs) =
    (if decide (status r = s) then 1 else 0) + count_status s rs.
Proof. unfold count_status. rewrite filter_cons. by case_decide. Qed.

Lemma handle_accounting (r : Request) (w : World) :
  keys_drawn w → (∀ m n, entropy w m = entropy w n → m = n) →
  keys_drawn (handle r w).2 ∧ entropy (handle r w).2 = entropy w ∧
  size (DB (handle r w).2) + (if decide (status (handle r w).1 = 204) then 1 else 0) =
    size (DB w) + (if decide (status (handle r w).1 = 201) then 1 else 0).
Proof.
  intros K Hinj. pose proof (handle_cases r w) as H.
  destruct r as [body | | i | i body | i].
  - destruct H as [(p & _ & ->) | (errs & _ & ->)]; [| by cbn]. cbn.
    assert (F : DB w !! entropy w (drawn w) = None).
    { destruct (DB w !! entropy w (drawn w)) eqn:E; [| done].
      destruct (K (entropy w (drawn w))) as (n & Hn & En); [by eexists |].
      apply Hinj in En. lia. }
    split_and!; [| done | rewrite map_size_insert_None by done; repeat case_decide; lia].
    intros k. cbn. destruct (decide (entropy w (drawn w) = k)) as [<- | Hne].
    + intros _. exists (drawn w). split; [lia | done].
    + rewrite lookup_insert_ne by done. intros Hk.
      destruct (K k Hk) as (n & Hn & ->). exists n. split; [lia | done].
  - rewrite H. by cbn.
  - rewrite H. destruct (DB w !! i); by cbn.
  - destruct H as [(p & _ & ->) | (errs & _ & ->)]; [| by cbn].
    destruct (DB w !! i) eqn:E; [| by cbn]. cbn.
    split_and!; [| done | erewrite map_size_insert_Some by done; repeat case_decide; lia].
    intros k. cbn. destruct (decide (i = k)) as [<- | Hne].
    + intros _. apply K. by eexists.
    + rewrite lookup_insert_ne by done. apply K.
  - rewrite H. destruct (DB w !! i) eqn:E; [| by cbn]. cbn.
    split_and!; [| done |].
    + intros k. cbn. destruct (decide (i = k)) as [<- | Hne].
      * rewrite lookup_delete_eq. by intros [? ?].
      * rewrite lookup_delete_ne by done. apply K.
    + erewrite map_size_delete_Some by done.
      assert (size (DB w) ≠ 0); [| repeat case_decide; lia].
      intros Hz. apply map_size_empty_iff in Hz. rewrite Hz in E. by rewrite lookup_empty in E.
Qed.

Lemma serve_accounting (rs : list Request) (w : World) :
  keys_drawn w → (∀ m n, entropy w m = entropy w n → m = n) →
  size (DB (serve rs w).2) + count_status 204 (serve rs w).1 =
    size (DB w) + count_status 201 (serve rs w).1.
Proof.
  revert w. induction rs as [| r rs IH]; intros w K Hinj; cbn [serve]; [by cbn |].
  destruct (handle_accounting r w K Hinj) as (K1 & He & Hs).
  destruct (handle r w) as [resp w1]. cbn [fst snd] in *.
  specialize (IH w1 K1). rewrite He in IH. specialize (IH Hinj).
  destruct (serve rs w1) as [resps w2]. cbn [fst snd] in *.
  rewrite !count_status_cons. lia.
Qed.

(** X21. Bookkeeping of a run from the empty store: when [uuid4] never
    returns the same value twice, the number of stored products is the
    number of creations answered 201 less the number of deletions
    answered 204. *)
Theorem store_accounting (e : nat → UUID) (rs : list Request) :
  (∀ m n, e m = e n → m = n) →
  size (DB (serve rs (start e)).2) + count_status 204 (serve rs (start e)).1 =
    count_status 201 (serve rs (start e)).1.
Proof.
  intros Hinj. rewrite serve_accounting; [| | done].
  - change (DB (start e)) with (∅ : gmap N ProductoOut). by rewrite map_size_empty.
  - intros k. cbn. rewrite lookup_empty. by intros [? ?].
Qed.

Lemma store_accounting_three :
  size (DB (serve [POST_productos miel; POST_productos miel; DELETE_producto 0%N]
              (start N.of_nat)).2) + 1 = 2.
Proof.
  exact (store_accounting N.of_nat
           [POST_productos miel; POST_productos miel; DELETE_producto 0%N]
           (fun m n E => Nat2N.inj m n E)).
Defined.

End Accounting.
